(** * train_chess_model.py: chunked dataset and training loop

    A shallow embedding of [src/train_chess_model.py].

    - Python integers are [Z]; [//] is floor division, which is [Z.div],
      except that a zero divisor raises [ZeroDivisionError].
    - Exceptions are values of [exn]; a computation that can raise returns
      a [result].
    - The CSV file is the list of its data rows (the lines after the header
      line); [pd.read_csv] is modelled by [read_csv] below.
    - The program of the [__main__] block runs in a state-and-exception
      monad over a [machine]: the torch state, the file system and the
      ordered trace of effects.  What torch computes is left abstract
      (class [Torch]); the control flow around it is the source's.
    - The progress bar and the wall-clock time stamps inside log lines are
      presentation and are left out. *)

From stdpp Require Import base option list gmap strings pretty fin_maps sorting.
From Stdlib Require Import ZArith Lia.

Open Scope Z_scope.

(** ** Exceptions and results *)

(** The messages of the [FileExistsError]s of lines 161 and 164, and the
    one [os.mkdir] raises by itself. *)
Inductive setup_failure :=
  | WeightsDirExists
  | DatasetNotFound
  | PathExists.

Inductive exn :=
  | FileExistsError (why : setup_failure)
  | FileNotFoundError
  | IsADirectoryError
  | EmptyDataError
  | ParserError
  | ZeroDivisionError
  | ValueError
  | TypeError
  | AttributeError
  | DecodeError
  | TorchError
  | OSError
  | Exception (msg : string).

Inductive result (A : Type) :=
  | Ok (a : A)
  | Raise (e : exn).
Arguments Ok {A} a.
Arguments Raise {A} e.

Definition result_bind {A B} (r : result A) (k : A → result B) : result B :=
  match r with
  | Ok a => k a
  | Raise e => Raise e
  end.

Definition result_map {A B} (f : A → B) (r : result A) : result B :=
  result_bind r (λ a, Ok (f a)).

(** [[f(x) for x in l]] where [f] may raise: the first failure wins. *)
Fixpoint result_mapM {A B} (f : A → result B) (l : list A) : result (list B) :=
  match l with
  | [] => Ok []
  | x :: l' =>
      result_bind (f x) (λ y,
      result_bind (result_mapM f l') (λ ys, Ok (y :: ys)))
  end.

(** [range(n)] for a Python integer [n]: empty when [n <= 0]. *)
Definition range (n : Z) : list Z := Z.of_nat <$> seq 0 (Z.to_nat n).

(** [range(a, b)]. *)
Definition range2 (a b : Z) : list Z := (λ i, a + Z.of_nat i) <$> seq 0 (Z.to_nat (b - a)).

(** ** The file system *)

Section FileSystem.
Context {row state_dict log_line : Type}.

Inductive node :=
  | CsvFile (rows : list row)
  | LogFile (lines : list log_line)
  | Directory (entries : gmap string state_dict).

(** [pd.read_csv(path, sep='|', skiprows=start, nrows=stop)] with an
    integer [skiprows]: that many lines are dropped from the head of the
    file, the next line becomes the header, and at most [nrows] lines
    after it are the data.  With the file given as header line plus data
    rows [rows], dropping [skiprows] lines and a header leaves the data
    rows from index [skiprows] on, for [skiprows = 0] (the genuine header
    is used) as for [skiprows >= 1] (data row [skiprows - 1] is consumed
    as header).  When no line is left for the header pandas raises
    [EmptyDataError].  A negative [nrows] is rejected with [ValueError];
    a negative [skiprows] skips no line, as [skiprows = 0].  A log file
    is not a table: reading one as a table is made a [ParserError].
    Memory is not modelled: a [skiprows] far beyond the end of the file
    is treated like one just beyond it. *)
Definition read_csv (fs : gmap string node) (path : string)
    (skiprows nrows : Z) : result (list row) :=
  match fs !! path with
  | None => Raise FileNotFoundError
  | Some (Directory _) => Raise IsADirectoryError
  | Some (LogFile _) => Raise ParserError
  | Some (CsvFile rows) =>
      if nrows <? 0 then Raise ValueError
      else if Z.of_nat (length rows) <? skiprows then Raise EmptyDataError
      else Ok (take (Z.to_nat nrows) (drop (Z.to_nat skiprows) rows))
  end.
End FileSystem.
Arguments node : clear implicits.

(** ** class ChessDataset *)

Section ChessDataset.
Context {row tensor state_dict log_line : Type}.

(** The body of the loop of [_get_gpu_chunk] (lines 66-74): the fields of
    one row are evaluated and turned into the pair (input tensor, label
    tensor) on the device; [None] when this raises. *)
Variable decode : row → option (tensor * tensor).

(** The attributes of an instance.  [_chunk_size] holds what
    [self._chunk_size] evaluates to: the instance attribute when
    [__init__] has set it, the class attribute otherwise. *)
Record ChessDataset := {
  _dataset_path : string;
  _start_index : Z;
  _stop_index : Z;
  _chunk_size : Z;
  _is_test_dataset : bool;
  _test_chunk : option (list (tensor * tensor));
}.

Definition decode_row (r : row) : result (tensor * tensor) :=
  match decode r with
  | Some s => Ok s
  | None => Raise DecodeError
  end.

(** [_get_gpu_chunk(self, start, stop)], lines 54-76; only the path of
    [self] is read. *)
Definition _get_gpu_chunk (fs : gmap string (node row state_dict log_line)) (path : string) (start stop : Z)
    : result (list (tensor * tensor)) :=
  result_bind (read_csv fs path start stop) (λ chunk,
  result_mapM decode_row chunk).

(** The value of [self._chunk_size] after lines 48-49, [CHUNK_SIZE] being
    the class attribute. *)
Definition clamped_chunk_size (CHUNK_SIZE start stop : Z) : Z :=
  if CHUNK_SIZE >? stop - start then stop - start else CHUNK_SIZE.

(** [ChessDataset(path, start, stop)], lines 43-52. *)
Definition __init__ (CHUNK_SIZE : Z) (fs : gmap string (node row state_dict log_line)) (path : string)
    (start stop : Z) : result ChessDataset :=
  let chunk_size := clamped_chunk_size CHUNK_SIZE start stop in
  if chunk_size =? 0 then Raise ZeroDivisionError
  else
    let is_test_dataset := negb ((stop - start) / chunk_size =? 0) in
    result_bind
      (if is_test_dataset
       then result_map Some (_get_gpu_chunk fs path start stop)
       else Ok None) (λ test_chunk,
    Ok {| _dataset_path := path;
          _start_index := start;
          _stop_index := stop;
          _chunk_size := chunk_size;
          _is_test_dataset := is_test_dataset;
          _test_chunk := test_chunk |}).

(** [__len__], line 84. *)
Definition __len__ (self : ChessDataset) : Z :=
  _stop_index self - _start_index self.

(** What a generator hands out: a single sample (test data set) or a
    chunk of samples (training data set). *)
Inductive item :=
  | Sample (s : tensor * tensor)
  | Chunk (c : list (tensor * tensor)).

(** [__iter__], lines 96-104.  The generator is the list of the outcomes
    of its successive [next] calls; chunks are read when they are asked
    for, so each outcome is a [result], and a consumer stops at the
    first [Raise]. *)
Definition __iter__ (fs : gmap string (node row state_dict log_line)) (self : ChessDataset)
    : list (result item) :=
  if _is_test_dataset self then
    match _test_chunk self with
    | Some test_chunk => (λ s, Ok (Sample s)) <$> test_chunk
    | None => [Raise TypeError]
    end
  else if _chunk_size self =? 0 then [Raise ZeroDivisionError]
  else
    let num_of_chunks := (_stop_index self - _start_index self) / _chunk_size self in
    (λ i, result_map Chunk
            (_get_gpu_chunk fs (_dataset_path self)
               (i * _start_index self)
               (i * _start_index self + _chunk_size self)))
      <$> range num_of_chunks.

(** The items a full pass hands out before the generator stops or
    raises. *)
Fixpoint yielded (g : list (result item)) : list item :=
  match g with
  | Ok it :: g' => it :: yielded g'
  | _ => []
  end.

(** All samples of a pass, in the order of production. *)
Definition samples_of (its : list item) : list (tensor * tensor) :=
  its ≫= λ it, match it with Sample s => [s] | Chunk c => c end.

End ChessDataset.

(** ** The torch interface

    What the program asks of pandas and torch: the types of table rows,
    tensors, loss values and parameter snapshots, and the operations, as
    functions on an abstract [world] (parameters, gradients, optimizer
    moments, RNG, tensor storage).  An operation that can raise returns
    [None] for its value. *)

Class Torch := {
  row : Type;
  tensor : Type;
  loss : Type;
  state_dict : Type;
  world : Type;
  (** lines 66-74: one row made into (input tensor, label tensor) *)
  row_to_sample : row → option (tensor * tensor);
  (** lines 172-174: [ChessModel().to(DEVICE)], [Adam], [MSELoss] *)
  torch_setup : world → world;
  MODEL_train : world → world;
  MODEL_eval : world → world;
  (** [MODEL(input_data)] *)
  MODEL_call : tensor → world → option tensor * world;
  MSE_LOSS : tensor → tensor → world → option loss * world;
  (** [train_loss.backward()] *)
  backward : loss → world → option unit * world;
  OPTIMIZER_zero_grad : world → world;
  OPTIMIZER_step : world → option unit * world;
  (** entering and leaving [with torch.no_grad()] *)
  no_grad_enter : world → world;
  no_grad_exit : world → world;
  MODEL_state_dict : world → state_dict;
  (** [a, b = t] for a tensor [t]: [None] is the [ValueError] of a tensor
      whose first dimension is not 2 *)
  unpack2 : tensor → option (tensor * tensor);
  (** the integer [0] the running totals start from *)
  loss_zero : loss;
  loss_add : loss → loss → loss;
  (** [total / n]; [None] is [ZeroDivisionError] *)
  loss_div : loss → Z → option loss;
  (** truth value of [a < b] *)
  loss_lt : loss → loss → bool;
}.

(** ** Configuration, lines 15-21 *)

Record config := {
  NUMBER_OF_EPOCHS : Z;
  TRAIN_DATASET_LENGTH : Z;
  TEST_DATASET_LENGTH : Z;
  CHUNK_SIZE : Z;
}.

Definition source_config : config :=
  {| NUMBER_OF_EPOCHS := 300;
     TRAIN_DATASET_LENGTH := 81;
     TEST_DATASET_LENGTH := 100000;
     CHUNK_SIZE := 9 |}.

(** Paths are relative to the working directory. *)
Definition DIR_FOR_WEIGHTS : string := "weights".
Definition DATASET_PATH : string := "TANH_NORM_CHESS_DATASET.csv".

(** The name of the log file, line 23; [uuid] is the text of
    [uuid.uuid4()]. *)
Definition log_name (uuid : string) : string := "train_" +:+ uuid +:+ ".log".

(** The file name of line 219. *)
Definition checkpoint_name (epoch_number : Z) : string :=
  "model_epoch_" +:+ pretty epoch_number +:+ ".pt".

(** ** The machine and its monad *)

Section Program.
Context {T : Torch}.

(** The lines written to the log file (lines 166, 215, 233). *)
Inductive log_line :=
  | StartTime
  | EpochLine (epoch_number number_of_epochs : Z) (train_mse test_mse : loss)
  | StopTime.

Inductive torch_op :=
  | OpSetup
  | OpTrain
  | OpEval
  | OpZeroGrad
  | OpForward (x : tensor)
  | OpLoss
  | OpBackward
  | OpStep
  | OpNoGradEnter
  | OpNoGradExit.

(** The effects of a run, in the order they happen. *)
Inductive event :=
  | EvOpen (path : string)
  | EvMkdir (path : string)
  | EvWrite (line : log_line)
  | EvFsync
  | EvPrint (line : log_line)
  | EvSave (name : string) (sd : state_dict)
  | EvClose
  | EvTorch (op : torch_op).

Record machine := {
  torch : world;
  fs : gmap string (node row state_dict log_line);
  trace : list event;
}.

Definition M (A : Type) : Type := machine → result A * machine.

Definition ret {A} (a : A) : M A := λ m, (Ok a, m).

Definition raise {A} (e : exn) : M A := λ m, (Raise e, m).

Definition bind {A B} (c : M A) (k : A → M B) : M B :=
  λ m, match c m with
       | (Ok a, m') => k a m'
       | (Raise e, m') => (Raise e, m')
       end.

Definition lift {A} (r : result A) : M A := λ m, (r, m).

(** A [for] loop that threads the local variables [s] through its body. *)
Fixpoint foldM {A S} (body : S → A → M S) (l : list A) (s : S) : M S :=
  match l with
  | [] => ret s
  | x :: l' => bind (body s x) (foldM body l')
  end.

Definition emit (ev : event) (m : machine) : machine :=
  {| torch := torch m; fs := fs m; trace := trace m ++ [ev] |}.

Definition set_fs (f : gmap string (node row state_dict log_line)) (m : machine)
    : machine :=
  {| torch := torch m; fs := f; trace := trace m |}.

Definition set_torch (w : world) (m : machine) : machine :=
  {| torch := w; fs := fs m; trace := trace m |}.

Definition torch_do (op : torch_op) (f : world → world) : M unit :=
  λ m, (Ok (), emit (EvTorch op) (set_torch (f (torch m)) m)).

Definition torch_try {A} (op : torch_op) (f : world → option A * world) : M A :=
  λ m, let '(r, w) := f (torch m) in
       (match r with Some a => Ok a | None => Raise TorchError end,
        emit (EvTorch op) (set_torch w m)).

(** [open(path, 'w')]: the file is created, or emptied when it exists. *)
Definition open_w (path : string) : M unit :=
  λ m, match fs m !! path with
       | Some (Directory _) => (Raise IsADirectoryError, m)
       | _ => (Ok (), emit (EvOpen path) (set_fs (<[path := LogFile []]> (fs m)) m))
       end.

Definition os_path_exists (path : string) : M bool :=
  λ m, (Ok (bool_decide (is_Some (fs m !! path))), m).

Definition os_mkdir (path : string) : M unit :=
  λ m, match fs m !! path with
       | Some _ => (Raise (FileExistsError PathExists), m)
       | None => (Ok (), emit (EvMkdir path) (set_fs (<[path := Directory ∅]> (fs m)) m))
       end.

(** [LOG_FILE.write(line)]; buffering is not modelled, the line goes to
    the file at once. *)
Definition LOG_FILE_write (path : string) (line : log_line) : M unit :=
  λ m, match fs m !! path with
       | Some (LogFile lines) =>
           (Ok (), emit (EvWrite line)
                     (set_fs (<[path := LogFile (lines ++ [line])]> (fs m)) m))
       | _ => (Raise OSError, m)
       end.

(** [torch.save(sd, os.path.join(dir, name))] *)
Definition torch_save (sd : state_dict) (dir name : string) : M unit :=
  λ m, match fs m !! dir with
       | Some (Directory entries) =>
           (Ok (), emit (EvSave name sd)
                     (set_fs (<[dir := Directory (<[name := sd]> entries)]> (fs m)) m))
       | _ => (Raise OSError, m)
       end.

Definition new_ChessDataset (chunk_size : Z) (path : string) (start stop : Z)
    : M (ChessDataset (tensor := tensor)) :=
  λ m, (__init__ row_to_sample chunk_size (fs m) path start stop, m).

(** [iter(dataset)] *)
Definition iterate (dataset : ChessDataset (tensor := tensor))
    : M (list (result (item (tensor := tensor)))) :=
  λ m, (Ok (__iter__ row_to_sample (fs m) dataset), m).

(** [with torch.no_grad(): body]; the context is left on every exit. *)
Definition with_no_grad {A} (body : M A) : M A :=
  λ m, let '(r, m') := body (emit (EvTorch OpNoGradEnter)
                              (set_torch (no_grad_enter (torch m)) m)) in
       (r, emit (EvTorch OpNoGradExit) (set_torch (no_grad_exit (torch m')) m')).

(** [total / n] of lines 199 and 210 *)
Definition divide (total : loss) (n : Z) : M loss :=
  match loss_div total n with
  | Some l => ret l
  | None => raise ZeroDivisionError
  end.

(** ** The [__main__] block *)

(** The body of the inner training loop, lines 187-196. *)
Definition train_sample (epoch_train_loss : loss) (input_data target : tensor)
    : M loss :=
  bind (torch_do OpZeroGrad OPTIMIZER_zero_grad) (λ _,
  bind (torch_try (OpForward input_data) (MODEL_call input_data)) (λ output_data,
  bind (torch_try OpLoss (MSE_LOSS output_data target)) (λ train_loss,
  bind (torch_try OpBackward (backward train_loss)) (λ _,
  let epoch_train_loss := loss_add epoch_train_loss train_loss in
  bind (torch_try OpStep OPTIMIZER_step) (λ _,
  ret epoch_train_loss))))).

(** The body of the outer training loop for one outcome of the generator,
    lines 185-186.  On a chunk the inner loop walks its samples.  On a
    single sample [(x, y)] the inner loop walks the two tensors of the
    tuple and unpacks each of them into [input_data, target]. *)
Definition train_item (epoch_train_loss : loss)
    (r : result (item (tensor := tensor))) : M loss :=
  match r with
  | Raise e => raise e
  | Ok (Chunk train_chunk) =>
      foldM (λ acc s, train_sample acc s.1 s.2) train_chunk epoch_train_loss
  | Ok (Sample (x, y)) =>
      foldM (λ acc t, match unpack2 t with
                      | Some (input_data, target) => train_sample acc input_data target
                      | None => raise ValueError
                      end) [x; y] epoch_train_loss
  end.

(** Lines 182-196: the running total of the training pass. *)
Definition training_pass (DATASET_FOR_TRAIN : ChessDataset (tensor := tensor))
    : M loss :=
  bind (torch_do OpTrain MODEL_train) (λ _,
  bind (iterate DATASET_FOR_TRAIN) (λ gen,
  foldM train_item gen loss_zero)).

(** The body of the validation loop for one outcome of the generator,
    lines 206-208.  A chunk cannot be used as [input_data, target]: with
    two elements the model is called on a tuple, otherwise the unpacking
    itself fails. *)
Definition validate_item (epoch_test_loss : loss)
    (r : result (item (tensor := tensor))) : M loss :=
  match r with
  | Raise e => raise e
  | Ok (Sample (input_data, target)) =>
      bind (torch_try (OpForward input_data) (MODEL_call input_data)) (λ output_data,
      bind (torch_try OpLoss (MSE_LOSS output_data target)) (λ l,
      ret (loss_add epoch_test_loss l)))
  | Ok (Chunk c) =>
      raise (if (length c =? 2)%nat then AttributeError else ValueError)
  end.

(** Lines 202-208: the running total of the validation pass. *)
Definition validation_pass (DATASET_FOR_TEST : ChessDataset (tensor := tensor))
    : M loss :=
  bind (torch_do OpEval MODEL_eval) (λ _,
  with_no_grad (
    bind (iterate DATASET_FOR_TEST) (λ gen,
    foldM validate_item gen loss_zero))).

(** [test_losses[-15:]] *)
Definition last15 (test_losses : list loss) : list loss :=
  drop (length test_losses - 15) test_losses.

(** Lines 222-231.  The result is the list [test_losses] after the test;
    the exception is the one of line 229. *)
Definition overfitting_test (test_losses : list loss) (epoch_test_loss : loss)
    : result (list loss) :=
  if (15 <? length test_losses)%nat then
    let counter :=
      fold_left (λ counter prev_loss,
                   if loss_lt prev_loss epoch_test_loss then counter + 1 else counter)
                (last15 test_losses) 0 in
    if counter =? 15 then Raise (Exception "Overfitting has begun!")
    else Ok (test_losses ++ [epoch_test_loss])
  else Ok test_losses.

(** One turn of the loop of line 178; [test_losses] is the only variable
    that lives across the turns. *)
Definition epoch (cfg : config) (log_path : string)
    (DATASET_FOR_TRAIN DATASET_FOR_TEST : ChessDataset (tensor := tensor))
    (test_losses : list loss) (epoch_number : Z) : M (list loss) :=
  bind (training_pass DATASET_FOR_TRAIN) (λ total,
  bind (divide total (TRAIN_DATASET_LENGTH cfg)) (λ epoch_train_loss,
  bind (validation_pass DATASET_FOR_TEST) (λ total,
  bind (divide total (TEST_DATASET_LENGTH cfg)) (λ epoch_test_loss,
  let line := EpochLine epoch_number (NUMBER_OF_EPOCHS cfg)
                epoch_train_loss epoch_test_loss in
  bind (λ m, (Ok (), emit (EvPrint line) m)) (λ _,
  bind (LOG_FILE_write log_path line) (λ _,
  bind (λ m, (Ok (), emit EvFsync m)) (λ _,
  bind (λ m, (Ok (MODEL_state_dict (torch m)), m)) (λ sd,
  bind (torch_save sd DIR_FOR_WEIGHTS (checkpoint_name epoch_number)) (λ _,
  lift (overfitting_test test_losses epoch_test_loss)))))))))).

(** The loop of line 178 over the given epoch numbers. *)
Definition epochs (cfg : config) (log_path : string)
    (DATASET_FOR_TRAIN DATASET_FOR_TEST : ChessDataset (tensor := tensor))
    (numbers : list Z) (test_losses : list loss) : M (list loss) :=
  foldM (epoch cfg log_path DATASET_FOR_TRAIN DATASET_FOR_TEST) numbers test_losses.

(** Lines 158-233. *)
Definition main (cfg : config) (log_path : string) : M unit :=
  bind (os_path_exists DIR_FOR_WEIGHTS) (λ e,
  bind (if negb e then os_mkdir DIR_FOR_WEIGHTS
        else raise (FileExistsError WeightsDirExists)) (λ _,
  bind (os_path_exists DATASET_PATH) (λ e,
  bind (if negb e then raise (FileExistsError DatasetNotFound) else ret ()) (λ _,
  bind (LOG_FILE_write log_path StartTime) (λ _,
  bind (new_ChessDataset (CHUNK_SIZE cfg) DATASET_PATH
          0 (TRAIN_DATASET_LENGTH cfg)) (λ DATASET_FOR_TRAIN,
  bind (new_ChessDataset (CHUNK_SIZE cfg) DATASET_PATH
          (TRAIN_DATASET_LENGTH cfg)
          (TRAIN_DATASET_LENGTH cfg + TEST_DATASET_LENGTH cfg)) (λ DATASET_FOR_TEST,
  bind (torch_do OpSetup torch_setup) (λ _,
  bind (epochs cfg log_path DATASET_FOR_TRAIN DATASET_FOR_TEST
          (range2 1 (NUMBER_OF_EPOCHS cfg + 1)) []) (λ _,
  LOG_FILE_write log_path StopTime))))))))).

(** The whole module: line 23, the [__main__] block, line 236. *)
Definition program (cfg : config) (uuid : string) : M unit :=
  bind (open_w (log_name uuid)) (λ _,
  bind (main cfg (log_name uuid)) (λ _,
  λ m, (Ok (), emit EvClose m))).

(** The machine a run starts from. *)
Definition boot (w : world) (files : gmap string (node row state_dict log_line))
    : machine :=
  {| torch := w; fs := files; trace := [] |}.
End Program.

(** ** A small instance to run the program on

    Rows, tensors, losses and the parameter state are integers.  Row [r]
    decodes to the sample [(r, r)]; the parameter state counts the
    optimizer steps taken. *)

Module Toy.

Definition decode (r : Z) : option (Z * Z) := Some (r, r).

#[export] Instance torch : Torch := {|
  row := Z;
  tensor := Z;
  loss := Z;
  state_dict := Z;
  world := Z;
  row_to_sample := decode;
  torch_setup w := w;
  MODEL_train w := w;
  MODEL_eval w := w;
  MODEL_call x w := (Some x, w);
  MSE_LOSS a b w := (Some ((a - b) * (a - b)), w);
  backward _ w := (Some (), w);
  OPTIMIZER_zero_grad w := w;
  OPTIMIZER_step w := (Some (), w + 1);
  no_grad_enter w := w;
  no_grad_exit w := w;
  MODEL_state_dict w := w;
  unpack2 t := Some (t, t);
  loss_zero := 0;
  loss_add := Z.add;
  loss_div a n := if n =? 0 then None else Some (a / n);
  loss_lt := Z.ltb;
|}.

(** A file system that holds only the table, with data rows [0 .. n-1]. *)
Definition table (n : Z) : gmap string (node Z Z log_line) :=
  {[ DATASET_PATH := CsvFile (range n) ]}.

Definition small_config : config :=
  {| NUMBER_OF_EPOCHS := 3;
     TRAIN_DATASET_LENGTH := 4;
     TEST_DATASET_LENGTH := 2;
     CHUNK_SIZE := 2 |}.

(** A data set object in training mode over [start, stop). *)
Definition training_dataset (start stop chunk_size : Z) : ChessDataset (tensor := Z) :=
  {| _dataset_path := DATASET_PATH;
     _start_index := start;
     _stop_index := stop;
     _chunk_size := chunk_size;
     _is_test_dataset := false;
     _test_chunk := None |}.

End Toy.

(** ** Reading a trace *)

Section Traces.
Context {T : Torch}.

(** The checkpoint files written, in order: name and content. *)
Definition saved (tr : list event)
    : list (string * state_dict) :=
  omap (λ ev, match ev with EvSave name sd => Some (name, sd) | _ => None end) tr.

(** The epoch numbers of the epoch lines printed, in order. *)
Definition printed (tr : list event)
    : list Z :=
  omap (λ ev, match ev with
              | EvPrint (EpochLine epoch_number _ _ _) => Some epoch_number
              | _ => None
              end) tr.

(** The torch operations of a forward-only pass: no gradient is computed
    or reset and no optimizer step is taken. *)
Definition forward_only (op : torch_op) : bool :=
  match op with
  | OpEval | OpNoGradEnter | OpNoGradExit | OpForward _ | OpLoss => true
  | OpSetup | OpTrain | OpZeroGrad | OpBackward | OpStep => false
  end.

(** The events of an epoch: a torch operation, an epoch line on the
    console or in the log, a checkpoint. *)
Definition epoch_event (ev : event)
    : bool :=
  match ev with
  | EvTorch _ | EvPrint _ | EvSave _ _ | EvFsync | EvWrite (EpochLine _ _ _ _) => true
  | _ => false
  end.

(** The directory after the given files have been written to it in
    order. *)
Definition write_all (files : list (string * state_dict))
    (entries : gmap string state_dict) : gmap string state_dict :=
  foldl (λ es p, <[p.1 := p.2]> es) entries files.
End Traces.

(** ** Describing what a computation does *)

Section Describing.
Context {T : Torch}.

(** Every run of [c] takes a machine to one related to it by [R],
    whether it returns or raises. *)
Definition respects {A} (R : machine → machine → Prop)
    (c : M A) : Prop :=
  ∀ m, R m (c m).2.

(** Every outcome of [c] satisfies [Q]. *)
Definition returns {A} (Q : result A → Prop) (c : M A) : Prop :=
  ∀ m, Q (c m).1.

(** The files are left alone and only torch operations happen. *)
Definition torch_only (m m' : machine) : Prop :=
  fs m' = fs m ∧ ∃ ops, trace m' = trace m ++ (EvTorch <$> ops).

(** As [torch_only], with forward-only operations and the same parameter
    state at the end. *)
Definition forward_pass (m m' : machine) : Prop :=
  MODEL_state_dict (torch m') = MODEL_state_dict (torch m)
  ∧ fs m' = fs m
  ∧ ∃ ops, trace m' = trace m ++ (EvTorch <$> ops)
           ∧ Forall (λ op, forward_only op = true) ops.

(** Only torch operations happen, and the parameter state is the same at
    the end unless an optimizer step was among them. *)
Definition step_mutates (m m' : machine) : Prop :=
  ∃ ops, trace m' = trace m ++ (EvTorch <$> ops)
         ∧ (OpStep ∉ ops → MODEL_state_dict (torch m') = MODEL_state_dict (torch m)).

(** What is assumed of torch about the parameter state: the operations
    other than the optimizer step do not change it. *)
Definition parameters_frame : Prop :=
  (∀ w, MODEL_state_dict (MODEL_train w) = MODEL_state_dict w)
  ∧ (∀ w, MODEL_state_dict (MODEL_eval w) = MODEL_state_dict w)
  ∧ (∀ w, MODEL_state_dict (OPTIMIZER_zero_grad w) = MODEL_state_dict w)
  ∧ (∀ x w, MODEL_state_dict (MODEL_call x w).2 = MODEL_state_dict w)
  ∧ (∀ a b w, MODEL_state_dict (MSE_LOSS a b w).2 = MODEL_state_dict w)
  ∧ (∀ l w, MODEL_state_dict (backward l w).2 = MODEL_state_dict w)
  ∧ (∀ w, MODEL_state_dict (no_grad_enter w) = MODEL_state_dict w)
  ∧ (∀ w, MODEL_state_dict (no_grad_exit w) = MODEL_state_dict w).

(** What is to be said of a whole run with outcome [run]: the epochs
    completed are 1, ..., [k] for some [k]; each has printed its line and
    written its checkpoint under its own name; every checkpoint written is
    in the weights directory at the end, with the content it was written
    with; the exception of line 229 is not raised; and the run returns
    only after all configured epochs. *)
Definition run_summary (cfg : config) (run : result () * machine) : Prop :=
  ∃ k : nat,
    printed (trace run.2) = range2 1 (1 + Z.of_nat k)
    ∧ (saved (trace run.2)).*1 = checkpoint_name <$> range2 1 (1 + Z.of_nat k)
    ∧ (∀ name sd, (name, sd) ∈ saved (trace run.2) →
         ∃ entries, fs run.2 !! DIR_FOR_WEIGHTS = Some (Directory entries)
                    ∧ entries !! name = Some sd)
    ∧ (∀ msg, run.1 ≠ Raise (Exception msg))
    ∧ (run.1 = Ok () → k = Z.to_nat (NUMBER_OF_EPOCHS cfg)).

(** The outcome is not the exception of line 229. *)
Definition not_overfitting {A} (r : result A) : Prop :=
  ∀ msg, r ≠ Raise (Exception msg).
End Describing.

(** ** class ChessModel, at the level of tensor shapes

    The values a network computes are floating point and stay abstract.
    What is modelled here is how the layers of lines 118-132 act on the
    shape of a tensor (the list of its dimension sizes), with torch's
    rules for them: a layer handed a shape it does not accept raises. *)

Module ChessModel.

(** [torch.nn.Conv2d(in_channels, out_channels, kernel_size, padding)],
    stride 1: the input is [(C, H, W)] or [(N, C, H, W)] with
    [C = in_channels]; a side of length [L] becomes [L + 2p - k + 1],
    which must be positive. *)
Definition Conv2d (in_channels out_channels : Z) (kernel_size padding : Z * Z)
    (x : list Z) : result (list Z) :=
  let side k p l := l + 2 * p - k + 1 in
  let conv c h w :=
    if negb (c =? in_channels) then None
    else
      let h' := side kernel_size.1 padding.1 h in
      let w' := side kernel_size.2 padding.2 w in
      if (h' <=? 0) || (w' <=? 0) then None else Some (h', w') in
  match x with
  | [c; h; w] =>
      match conv c h w with
      | Some (h', w') => Ok [out_channels; h'; w']
      | None => Raise TorchError
      end
  | [n; c; h; w] =>
      match conv c h w with
      | Some (h', w') => Ok [n; out_channels; h'; w']
      | None => Raise TorchError
      end
  | _ => Raise TorchError
  end.

(** [torch.nn.MaxPool2d(kernel_size, stride)]: a side of length [L]
    becomes [(L - kernel_size) // stride + 1], which must be positive. *)
Definition MaxPool2d (kernel_size stride : Z) (x : list Z) : result (list Z) :=
  let side l := (l - kernel_size) / stride + 1 in
  match x with
  | [c; h; w] =>
      if (side h <=? 0) || (side w <=? 0) then Raise TorchError
      else Ok [c; side h; side w]
  | [n; c; h; w] =>
      if (side h <=? 0) || (side w <=? 0) then Raise TorchError
      else Ok [n; c; side h; side w]
  | _ => Raise TorchError
  end.

(** [ReLU], [Dropout] and [Tanh] keep the shape. *)
Definition ReLU (x : list Z) : result (list Z) := Ok x.
Definition Dropout (x : list Z) : result (list Z) := Ok x.
Definition Tanh (x : list Z) : result (list Z) := Ok x.

(** [torch.nn.Flatten()]: the dimensions after the first are merged.  It
    is only ever handed the output of [conv_2], of three or four
    dimensions; fewer than two are made an error. *)
Definition Flatten (x : list Z) : result (list Z) :=
  match x with
  | d0 :: d1 :: rest => Ok [d0; foldr Z.mul 1 (d1 :: rest)]
  | _ => Raise TorchError
  end.

(** [torch.nn.Linear(in_features, out_features)]: the last dimension must
    be [in_features] and becomes [out_features]. *)
Definition Linear (in_features out_features : Z) (x : list Z) : result (list Z) :=
  match last x with
  | Some d => if d =? in_features then Ok (removelast x ++ [out_features])
              else Raise TorchError
  | None => Raise TorchError
  end.

(** The layers of [__init__], lines 118-132. *)
Definition conv_1 (x : list Z) : result (list Z) :=
  result_bind (Conv2d 14 28 (3, 3) (1, 1) x) (λ x,
  result_bind (ReLU x) (MaxPool2d 2 2)).

Definition conv_2 (x : list Z) : result (list Z) :=
  result_bind (Conv2d 28 56 (3, 3) (1, 1) x) (λ x,
  result_bind (ReLU x) (MaxPool2d 2 2)).

Definition flatten := Flatten.
Definition drop_out := Dropout.
Definition linear_1 := Linear 224 28.
Definition relu := ReLU.
Definition linear_2 := Linear 28 1.
Definition tanh := Tanh.

(** [x.unsqueeze_(0)]: a dimension of size 1 is put in front, in place. *)
Definition unsqueeze_0 (x : list Z) : list Z := 1 :: x.

(** [forward], lines 141-154, on the shape of its argument.  The result
    is the shape of the output, or the exception, together with the shape
    the caller's tensor has afterwards: line 141 changes it in place,
    the later lines rebind the local name only. *)
Definition forward (x : list Z) : result (list Z) * list Z :=
  let x := unsqueeze_0 x in
  (result_bind (conv_1 x) (λ y,
   result_bind (conv_2 y) (λ y,
   result_bind (flatten y) (λ y,
   result_bind (drop_out y) (λ y,
   result_bind (linear_1 y) (λ y,
   result_bind (relu y) (λ y,
   result_bind (linear_2 y) tanh)))))),
   x).

(** The shape of a label tensor, line 71: [torch.FloatTensor([[y]])]. *)
Definition label_shape : list Z := [1; 1].

End ChessModel.

(** ** A second small instance

    As [Toy.torch], but no tensor unpacks into two, as is the case for a
    tensor whose first dimension is not 2. *)

Module Strict.

#[export] Instance torch : Torch := {|
  row := Z;
  tensor := Z;
  loss := Z;
  state_dict := Z;
  world := Z;
  row_to_sample := Toy.decode;
  torch_setup w := w;
  MODEL_train w := w;
  MODEL_eval w := w;
  MODEL_call x w := (Some x, w);
  MSE_LOSS a b w := (Some ((a - b) * (a - b)), w);
  backward _ w := (Some (), w);
  OPTIMIZER_zero_grad w := w;
  OPTIMIZER_step w := (Some (), w + 1);
  no_grad_enter w := w;
  no_grad_exit w := w;
  MODEL_state_dict w := w;
  unpack2 _ := None;
  loss_zero := 0;
  loss_add := Z.add;
  loss_div a n := if n =? 0 then None else Some (a / n);
  loss_lt := Z.ltb;
|}.

End Strict.

(** ** A third small instance

    As [Toy.torch], but the output of the model is off its input by the
    parameter state, and every optimizer step moves the parameter state
    on by one.  A row decodes to a sample whose label is its input, so
    the loss of a sample is the square of the number of optimizer steps
    taken so far: it rises from epoch to epoch. *)

Module Diverging.

#[export] Instance torch : Torch := {|
  row := Z;
  tensor := Z;
  loss := Z;
  state_dict := Z;
  world := Z;
  row_to_sample := Toy.decode;
  torch_setup w := w;
  MODEL_train w := w;
  MODEL_eval w := w;
  MODEL_call x w := (Some (x + w), w);
  MSE_LOSS a b w := (Some ((a - b) * (a - b)), w);
  backward _ w := (Some (), w);
  OPTIMIZER_zero_grad w := w;
  OPTIMIZER_step w := (Some (), w + 1);
  no_grad_enter w := w;
  no_grad_exit w := w;
  MODEL_state_dict w := w;
  unpack2 t := Some (t, t);
  loss_zero := 0;
  loss_add := Z.add;
  loss_div a n := if n =? 0 then None else Some (a / n);
  loss_lt := Z.ltb;
|}.

(** A file system that holds only the table, with data rows [0 .. n-1]. *)
Definition table (n : Z) : gmap string (node Z Z log_line) :=
  {[ DATASET_PATH := CsvFile (range n) ]}.


End Diverging.

(** ** The effects of a run outside torch *)

Section Records.
Context {T : Torch}.

(** The events of a trace that are not torch operations. *)
Definition io_events (tr : list event) : list event :=
  omap (λ ev, match ev with EvTorch _ => None | _ => Some ev end) tr.

(** What a completed epoch leaves behind: its number, its two average
    losses and the parameter state saved. *)
Definition epoch_line (cfg : config) (r : Z * loss * loss * state_dict) : log_line :=
  EpochLine r.1.1.1 (NUMBER_OF_EPOCHS cfg) r.1.1.2 r.1.2.

(** The effects of lines 214-219 for a completed epoch. *)
Definition epoch_block (cfg : config) (r : Z * loss * loss * state_dict) : list event :=
  [EvPrint (epoch_line cfg r); EvWrite (epoch_line cfg r); EvFsync;
   EvSave (checkpoint_name r.1.1.1) r.2].


End Records.

(** * Properties *)

(** ** The data set *)

Section DatasetFacts.
Context {row tensor state_dict log_line : Type}.
Variable decode : row → option (tensor * tensor).

Lemma clamped_chunk_size_le (CHUNK_SIZE start stop : Z) :
  CHUNK_SIZE > stop - start →
  clamped_chunk_size CHUNK_SIZE start stop = stop - start.
Proof.
  intros Hgt. unfold clamped_chunk_size.
  destruct (Z.gtb_spec CHUNK_SIZE (stop - start)); [done | lia].
Qed.

Lemma clamped_chunk_size_bounds (CHUNK_SIZE start stop : Z) :
  0 < CHUNK_SIZE → start < stop →
  0 < clamped_chunk_size CHUNK_SIZE start stop ≤ stop - start.
Proof.
  intros Hc Hlt. unfold clamped_chunk_size.
  destruct (Z.gtb_spec CHUNK_SIZE (stop - start)); lia.
Qed.

(** With a positive configured chunk size and a non-empty range the
    quotient of line 51 is at least one, so the constructor never builds a
    data set in training mode. *)
Lemma init_never_training (CHUNK_SIZE : Z)
    (fs : gmap string (node row state_dict log_line)) (path : string)
    (start stop : Z) (ds : ChessDataset) :
  0 < CHUNK_SIZE → start < stop →
  __init__ decode CHUNK_SIZE fs path start stop = Ok ds →
  _is_test_dataset ds = true
  ∧ _chunk_size ds = clamped_chunk_size CHUNK_SIZE start stop.
Proof.
  intros Hc Hlt. unfold __init__.
  pose proof (clamped_chunk_size_bounds CHUNK_SIZE start stop Hc Hlt) as [Hpos Hle].
  set (c := clamped_chunk_size CHUNK_SIZE start stop) in *.
  destruct (Z.eqb_spec c 0) as [? | _]; [lia |].
  assert (Hq : 1 ≤ (stop - start) / c).
  { apply Z.div_le_lower_bound; lia. }
  destruct (Z.eqb_spec ((stop - start) / c) 0) as [? | _]; [lia |].
  simpl. unfold result_map, result_bind.
  destruct (_get_gpu_chunk decode fs path start stop); [| done].
  intros [= <-]. done.
Qed.

End DatasetFacts.

(** C1.  The constructor call of line 168, [ChessDataset(path, 0, 81)] with
    chunk size 9, has a range longer than the chunk size, yet the object
    comes out as a test data set holding the whole range; the configured
    chunk size is kept. *)
Theorem init_train_range_is_test_dataset :
  let r := __init__ Toy.decode 9 (Toy.table 100) DATASET_PATH 0 81 in
  result_map _is_test_dataset r = Ok true
  ∧ result_map _chunk_size r = Ok 9
  ∧ result_map _test_chunk r = Ok (Some ((λ i, (i, i)) <$> range 81)).
Proof. vm_compute. done. Qed.

(** C2.  A range longer than the chunk size, [9, 27) with chunk size 9 on
    a table of 100 rows.  The constructor returns a test data set of
    length 18, and one pass over it hands out 27 single samples, rows
    9..35, and no chunk: not the 18 rows of the range in two chunks.  The
    object of line 168, over [0, 81), hands out its 81 rows, one by one
    as well and not in nine chunks. *)
Theorem iter_training_range_yields_samples :
  let rows := fmap (M := list) (λ i : Z, (i, i)) in
  let new start stop := __init__ Toy.decode 9 (Toy.table 100) DATASET_PATH start stop in
  let pass start stop :=
    result_map (λ ds, yielded (__iter__ Toy.decode (Toy.table 100) ds)) (new start stop) in
  result_map _is_test_dataset (new 9 27) = Ok true
  ∧ result_map __len__ (new 9 27) = Ok 18
  ∧ pass 9 27 = Ok (Sample <$> rows (range2 9 36))
  ∧ result_map (λ its, length (samples_of its)) (pass 9 27) = Ok 27%nat
  ∧ pass 0 81 = Ok (Sample <$> rows (range 81)).
Proof. vm_compute. done. Qed.

(** C3.  A range no longer than the chunk size, [2, 4) with chunk size 9
    on a table of ten rows: the object is a test data set, and one pass
    hands out four samples, rows 2, 3, 4 and 5, not the two rows of the
    range. *)
Theorem iter_test_reads_stop_rows :
  let r := __init__ Toy.decode 9 (Toy.table 10) DATASET_PATH 2 4 in
  result_map _is_test_dataset r = Ok true
  ∧ result_map __len__ r = Ok 2
  ∧ result_map (λ ds, yielded (__iter__ Toy.decode (Toy.table 10) ds)) r
    = Ok [Sample (2, 2); Sample (3, 3); Sample (4, 4); Sample (5, 5)].
Proof. vm_compute. done. Qed.

Section EvaluationPass.
Context {row tensor state_dict log_line : Type}.
Variable decode : row → option (tensor * tensor).

Lemma result_mapM_decode_row_ok (chunk : list row) (samples : list (tensor * tensor)) :
  Forall2 (λ r s, decode r = Some s) chunk samples →
  result_mapM (decode_row decode) chunk = Ok samples.
Proof.
  induction 1 as [| r s chunk samples Hr _ IH]; simpl; [done |].
  unfold decode_row at 1. rewrite Hr. simpl. by rewrite IH.
Qed.

Lemma yielded_samples (samples : list (tensor * tensor)) :
  yielded ((λ s, Ok (Sample s)) <$> samples) = Sample <$> samples.
Proof. induction samples as [| s samples IH]; [done |]. simpl. by f_equal. Qed.

(** What a test data set hands out: with a positive chunk size and a
    range inside a table whose rows decode, the constructor succeeds and
    one pass yields the samples of the [stop] rows that follow row
    [start] (fewer when the table ends), in table order.  This is the
    range itself when [start = 0]. *)
Lemma init_evaluation_pass (CHUNK_SIZE : Z)
    (fs : gmap string (node row state_dict log_line)) (path : string)
    (rows : list row) (start stop : Z) (samples : list (tensor * tensor)) :
  0 < CHUNK_SIZE → 0 ≤ start < stop →
  fs !! path = Some (CsvFile rows) →
  start ≤ Z.of_nat (length rows) →
  Forall2 (λ r s, decode r = Some s)
    (take (Z.to_nat stop) (drop (Z.to_nat start) rows)) samples →
  ∃ ds, __init__ decode CHUNK_SIZE fs path start stop = Ok ds
        ∧ _is_test_dataset ds = true
        ∧ __len__ ds = stop - start
        ∧ yielded (__iter__ decode fs ds) = Sample <$> samples.
Proof.
  intros Hc Hrange Hfs Hlen Hdec.
  assert (Hchunk : _get_gpu_chunk decode fs path start stop = Ok samples).
  { unfold _get_gpu_chunk, read_csv. rewrite Hfs.
    destruct (Z.ltb_spec stop 0); [lia |].
    destruct (Z.ltb_spec (Z.of_nat (length rows)) start); [lia |]. simpl.
    by apply result_mapM_decode_row_ok. }
  destruct (__init__ decode CHUNK_SIZE fs path start stop) as [ds | e] eqn:Hinit.
  - destruct (init_never_training decode CHUNK_SIZE fs path start stop ds Hc
                ltac:(lia) Hinit) as [Htest _].
    exists ds. split; [done |]. split; [done |].
    unfold __init__ in Hinit.
    destruct (_ =? 0); [done |]. simpl in Hinit.
    destruct (negb _); simpl in Hinit; [| by injection Hinit as <-].
    rewrite Hchunk in Hinit. simpl in Hinit. injection Hinit as <-.
    split; [done |]. unfold __iter__. simpl. apply yielded_samples.
  - exfalso. unfold __init__ in Hinit.
    pose proof (clamped_chunk_size_bounds CHUNK_SIZE start stop Hc ltac:(lia)) as [Hpos _].
    destruct (Z.eqb_spec (clamped_chunk_size CHUNK_SIZE start stop) 0); [lia |].
    simpl in Hinit. destruct (negb _); simpl in Hinit; [| done].
    by rewrite Hchunk in Hinit.
Qed.

End EvaluationPass.

Section DatasetErrors.
Context {row tensor state_dict log_line : Type}.
Variable decode : row → option (tensor * tensor).

(** The exceptions [_get_gpu_chunk] can raise. *)
Lemma result_mapM_decode_row_raises (chunk : list row) (e : exn) :
  result_mapM (decode_row decode) chunk = Raise e → e = DecodeError.
Proof.
  induction chunk as [| r chunk IH]; simpl; [done |].
  unfold decode_row at 1. destruct (decode r); simpl; [| by intros [= <-]].
  destruct (result_mapM (decode_row decode) chunk) as [ys | e']; simpl; [done |].
  intros [= <-]. by apply IH.
Qed.

Lemma get_gpu_chunk_raises
    (fs : gmap string (node row state_dict log_line)) (path : string)
    (start stop : Z) (e : exn) :
  _get_gpu_chunk decode fs path start stop = Raise e →
  e ∈ [FileNotFoundError; IsADirectoryError; ParserError; ValueError;
       EmptyDataError; DecodeError].
Proof.
  unfold _get_gpu_chunk, read_csv.
  destruct (fs !! path) as [[rows | lines | entries] |]; simpl;
    try (intros [= <-]; set_solver).
  destruct (stop <? 0); simpl; [intros [= <-]; set_solver |].
  destruct (Z.of_nat (length rows) <? start); simpl; [intros [= <-]; set_solver |].
  intros ->%result_mapM_decode_row_raises. set_solver.
Qed.

Lemma get_gpu_chunk_not_zero_division
    (fs : gmap string (node row state_dict log_line)) (path : string)
    (start stop : Z) :
  _get_gpu_chunk decode fs path start stop ≠ Raise ZeroDivisionError.
Proof.
  intros He%get_gpu_chunk_raises.
  rewrite !elem_of_cons, elem_of_nil in He. intuition discriminate.
Qed.

Lemma get_gpu_chunk_not_overfitting
    (fs : gmap string (node row state_dict log_line)) (path : string)
    (start stop : Z) :
  not_overfitting (_get_gpu_chunk decode fs path start stop).
Proof.
  intros msg He%get_gpu_chunk_raises.
  rewrite !elem_of_cons, elem_of_nil in He. intuition discriminate.
Qed.

Lemma init_not_overfitting (CHUNK_SIZE : Z)
    (fs : gmap string (node row state_dict log_line)) (path : string)
    (start stop : Z) :
  not_overfitting (__init__ decode CHUNK_SIZE fs path start stop).
Proof.
  intros msg. unfold __init__.
  destruct (_ =? 0); [done |]. simpl. destruct (negb _); simpl; [| done].
  unfold result_map, result_bind.
  pose proof (get_gpu_chunk_not_overfitting fs path start stop msg) as Hne.
  destruct (_get_gpu_chunk decode fs path start stop); [done | congruence].
Qed.

Lemma iter_not_overfitting
    (fs : gmap string (node row state_dict log_line)) (self : ChessDataset) :
  Forall not_overfitting (__iter__ decode fs self).
Proof.
  unfold __iter__. destruct (_is_test_dataset self).
  - destruct (_test_chunk self) as [c |].
    + apply Forall_fmap, Forall_true. by intros s msg.
    + by repeat constructor.
  - destruct (_ =? 0); [by repeat constructor |].
    apply Forall_fmap, Forall_true. intros i msg. simpl.
    unfold result_map, result_bind.
    pose proof (get_gpu_chunk_not_overfitting fs (_dataset_path self)
                  (i * _start_index self)
                  (i * _start_index self + _chunk_size self) msg) as Hne.
    destruct (_get_gpu_chunk _ _ _ _ _); [done | congruence].
Qed.

(** C10.  With a positive configured chunk size: an empty range clamps
    the chunk size to zero and the constructor raises [ZeroDivisionError];
    a non-empty range leaves the clamped chunk size strictly positive and
    the constructor does not raise [ZeroDivisionError]. *)
Theorem init_division_by_zero (CHUNK_SIZE : Z)
    (fs : gmap string (node row state_dict log_line)) (path : string)
    (start stop : Z) :
  0 < CHUNK_SIZE →
  (stop = start →
     clamped_chunk_size CHUNK_SIZE start stop = 0
     ∧ __init__ decode CHUNK_SIZE fs path start stop = Raise ZeroDivisionError)
  ∧ (start < stop →
     0 < clamped_chunk_size CHUNK_SIZE start stop
     ∧ __init__ decode CHUNK_SIZE fs path start stop ≠ Raise ZeroDivisionError).
Proof.
  intros Hc. split.
  - intros ->. assert (Hz : clamped_chunk_size CHUNK_SIZE start start = 0).
    { rewrite clamped_chunk_size_le; lia. }
    split; [done |]. unfold __init__. by rewrite Hz.
  - intros Hlt.
    pose proof (clamped_chunk_size_bounds CHUNK_SIZE start stop Hc Hlt) as [Hpos Hle].
    split; [done |]. unfold __init__.
    destruct (Z.eqb_spec (clamped_chunk_size CHUNK_SIZE start stop) 0); [lia |].
    simpl. destruct (negb _); simpl; [| done].
    unfold result_map, result_bind.
    pose proof (get_gpu_chunk_not_zero_division fs path start stop) as Hne.
    destruct (_get_gpu_chunk decode fs path start stop); [done | congruence].
Qed.

End DatasetErrors.

(** The source's chunk size on an empty and on a non-empty range. *)
Lemma init_division_by_zero_witness :
  (clamped_chunk_size 9 5 5 = 0
   ∧ __init__ Toy.decode 9 (Toy.table 10) DATASET_PATH 5 5 = Raise ZeroDivisionError)
  ∧ (0 < clamped_chunk_size 9 0 4
     ∧ __init__ Toy.decode 9 (Toy.table 10) DATASET_PATH 0 4 ≠ Raise ZeroDivisionError).
Proof.
  split.
  - apply (init_division_by_zero Toy.decode 9 (Toy.table 10) DATASET_PATH 5 5);
      [lia | reflexivity].
  - apply (init_division_by_zero Toy.decode 9 (Toy.table 10) DATASET_PATH 0 4); lia.
Defined.

(** ** The overfitting test *)

Section OverfittingTest.
Context {T : Torch}.

Lemma counter_bounds (cur : loss) (l : list loss) (c : Z) :
  let counter :=
    fold_left (λ counter prev, if loss_lt prev cur then counter + 1 else counter) l c in
  c ≤ counter ≤ c + Z.of_nat (length l)
  ∧ (counter = c + Z.of_nat (length l) ↔ Forall (λ prev, loss_lt prev cur = true) l).
Proof.
  revert c. induction l as [| p l IH]; intros c; simpl.
  - split; [lia |]. split; [by constructor | lia].
  - destruct (loss_lt p cur) eqn:Hp.
    + destruct (IH (c + 1)) as [Hb Hiff]. split; [lia |].
      split.
      * intros Heq. constructor; [done |]. apply Hiff. lia.
      * intros Hall. inversion Hall; subst. apply Hiff in H2. lia.
    + destruct (IH c) as [Hb Hiff]. split; [lia |].
      split; [lia |].
      intros Hall. inversion Hall; subst. congruence.
Qed.

Lemma length_last15 (test_losses : list loss) :
  (15 < length test_losses)%nat → length (last15 test_losses) = 15%nat.
Proof. intros Hlen. unfold last15. rewrite length_drop. lia. Qed.

(** The test raises exactly when more than 15 losses are retained and the
    last 15 of them are all below the current loss; it raises nothing
    else. *)
Lemma overfitting_test_raise_iff (test_losses : list loss) (epoch_test_loss : loss) :
  (overfitting_test test_losses epoch_test_loss = Raise (Exception "Overfitting has begun!")
   ↔ (15 < length test_losses)%nat
     ∧ Forall (λ prev, loss_lt prev epoch_test_loss = true) (last15 test_losses))
  ∧ (∀ e, overfitting_test test_losses epoch_test_loss = Raise e →
          e = Exception "Overfitting has begun!")
  ∧ (∀ l, overfitting_test test_losses epoch_test_loss = Ok l →
          l = test_losses ∨ l = test_losses ++ [epoch_test_loss]).
Proof.
  unfold overfitting_test.
  destruct (Nat.ltb_spec 15 (length test_losses)) as [Hlen | Hlen].
  - pose proof (counter_bounds epoch_test_loss (last15 test_losses) 0) as [Hb Hiff].
    rewrite (length_last15 _ Hlen) in Hb, Hiff. simpl in Hb, Hiff.
    destruct (Z.eqb_spec
      (fold_left (λ counter prev, if loss_lt prev epoch_test_loss then counter + 1 else counter)
         (last15 test_losses) 0) 15) as [Heq | Hne].
    + split; [| split]; [| by intros e [= <-] | done].
      split; [| done]. intros _. split; [done |]. by apply Hiff.
    + split; [| split]; [| done | intros l [= <-]; by right].
      split; [done |]. intros [_ Hall]. apply Hiff in Hall. lia.
  - split; [| split]; [| done | intros l [= <-]; by left].
    split; [done |]. intros [? _]. lia.
Qed.

Lemma overfitting_test_nil (epoch_test_loss : loss) :
  overfitting_test [] epoch_test_loss = Ok [].
Proof. reflexivity. Qed.

End OverfittingTest.

(** ** Reasoning about computations *)

Section MonadFacts.
Context {T : Torch}.
Variable R : machine → machine → Prop.
Hypothesis R_refl : ∀ m, R m m.
Hypothesis R_trans : ∀ m1 m2 m3, R m1 m2 → R m2 m3 → R m1 m3.

Lemma respects_ret {A} (a : A) : respects R (ret a).
Proof. intros m. apply R_refl. Qed.

Lemma respects_raise {A} (e : exn) : respects R (raise (A := A) e).
Proof. intros m. apply R_refl. Qed.


Lemma respects_bind {A B} (c : M A) (k : A → M B) :
  respects R c → (∀ a, respects R (k a)) → respects R (bind c k).
Proof.
  intros Hc Hk m. unfold bind. specialize (Hc m).
  destruct (c m) as [[a | e] m1]; simpl in *; [| done].
  eapply R_trans; [exact Hc | apply Hk].
Qed.

Lemma respects_foldM {A S} (body : S → A → M S) (l : list A) (s : S) :
  (∀ s x, respects R (body s x)) → respects R (foldM body l s).
Proof.
  intros Hbody. revert s. induction l as [| x l IH]; intros s; simpl.
  - apply respects_ret.
  - apply respects_bind; [apply Hbody | apply IH].
Qed.


Lemma respects_with_no_grad {A} (body : M A) :
  (∀ m, R m (emit (EvTorch OpNoGradEnter) (set_torch (no_grad_enter (torch m)) m))) →
  (∀ m, R m (emit (EvTorch OpNoGradExit) (set_torch (no_grad_exit (torch m)) m))) →
  respects R body → respects R (with_no_grad body).
Proof.
  intros Henter Hexit Hbody m. unfold with_no_grad.
  specialize (Hbody (emit (EvTorch OpNoGradEnter) (set_torch (no_grad_enter (torch m)) m))).
  destruct (body _) as [r m1]; simpl in *.
  eapply R_trans; [apply Henter |]. eapply R_trans; [exact Hbody | apply Hexit].
Qed.

End MonadFacts.

Section ReturnsFacts.
Context {T : Torch}.

Lemma returns_bind {A B} (Q1 : result A → Prop) (Q : result B → Prop)
    (c : M A) (k : A → M B) :
  returns Q1 c →
  (∀ a, Q1 (Ok a) → returns Q (k a)) →
  (∀ e, Q1 (Raise e) → Q (Raise e)) →
  returns Q (bind c k).
Proof.
  intros Hc Hk He m. unfold bind. specialize (Hc m).
  destruct (c m) as [[a | e] m1]; simpl in *; [by apply Hk | by apply He].
Qed.

Lemma not_overfitting_bind {A B} (c : M A) (k : A → M B) :
  returns not_overfitting c →
  (∀ a, returns not_overfitting (k a)) →
  returns not_overfitting (bind c k).
Proof.
  intros Hc Hk. apply (returns_bind not_overfitting); [done | auto |].
  intros e He msg [= ->]. by apply (He msg).
Qed.

Lemma not_overfitting_foldM {A S} (body : S → A → M S) (l : list A) (s : S) :
  (∀ s x, returns not_overfitting (body s x)) →
  returns not_overfitting (foldM body l s).
Proof.
  intros Hbody. revert s. induction l as [| x l IH]; intros s; simpl.
  - by intros m msg.
  - apply not_overfitting_bind; [apply Hbody | apply IH].
Qed.

End ReturnsFacts.

(** ** The two passes of an epoch *)

Section Passes.
Context {T : Torch}.

Lemma torch_only_refl (m : machine) : torch_only m m.
Proof. split; [done |]. exists []. by rewrite app_nil_r. Qed.

Lemma torch_only_trans (m1 m2 m3 : machine) :
  torch_only m1 m2 → torch_only m2 m3 → torch_only m1 m3.
Proof.
  intros [Hfs1 [ops1 Htr1]] [Hfs2 [ops2 Htr2]]. split; [congruence |].
  exists (ops1 ++ ops2). by rewrite Htr2, Htr1, fmap_app, app_assoc.
Qed.

Lemma torch_only_step (op : torch_op) (w : world) (m : machine) :
  torch_only m (emit (EvTorch op) (set_torch w m)).
Proof. split; [done |]. by exists [op]. Qed.

Lemma respects_torch_do (op : torch_op) (f : world → world) :
  respects torch_only (torch_do op f).
Proof. intros m. apply torch_only_step. Qed.

Lemma respects_torch_try {A} (op : torch_op) (f : world → option A * world) :
  respects torch_only (torch_try op f).
Proof.
  intros m. unfold torch_try. destruct (f (torch m)) as [r w]. apply torch_only_step.
Qed.

Lemma respects_iterate (ds : ChessDataset) : respects torch_only (iterate ds).
Proof. intros m. apply torch_only_refl. Qed.

Ltac respects_torch_only :=
  repeat lazymatch goal with
    | |- respects _ (bind _ _) =>
        apply respects_bind; [exact torch_only_trans | | intros ?]
    | |- respects _ (foldM _ _ _) =>
        apply respects_foldM; [exact torch_only_refl | exact torch_only_trans | intros ? ?]
    | |- respects _ (ret _) => apply respects_ret; exact torch_only_refl
    | |- respects _ (raise _) => apply respects_raise; exact torch_only_refl
    | |- respects _ (torch_do _ _) => apply respects_torch_do
    | |- respects _ (torch_try _ _) => apply respects_torch_try
    | |- respects _ (iterate _) => apply respects_iterate
    | |- respects _ (let _ := _ in _) => cbv zeta
    end.

Lemma respects_train_sample (acc : loss) (input_data target : tensor) :
  respects torch_only (train_sample acc input_data target).
Proof. unfold train_sample. respects_torch_only. Qed.

Lemma respects_train_item (acc : loss) (r : result item) :
  respects torch_only (train_item acc r).
Proof.
  unfold train_item. destruct r as [[[x y] | c] | e]; respects_torch_only.
  - destruct (unpack2 _) as [[a b] |]; [apply respects_train_sample |].
    respects_torch_only.
  - apply respects_train_sample.
Qed.

Lemma respects_training_pass (ds : ChessDataset) :
  respects torch_only (training_pass ds).
Proof. unfold training_pass. respects_torch_only. apply respects_train_item. Qed.

Lemma respects_validate_item (acc : loss) (r : result item) :
  respects torch_only (validate_item acc r).
Proof. unfold validate_item. destruct r as [[[x y] | c] | e]; respects_torch_only. Qed.

Lemma respects_validation_pass (ds : ChessDataset) :
  respects torch_only (validation_pass ds).
Proof.
  unfold validation_pass. respects_torch_only.
  apply respects_with_no_grad;
    [exact torch_only_trans | intros; apply torch_only_step ..|].
  respects_torch_only. apply respects_validate_item.
Qed.

End Passes.

(** ** The parameter state *)

Section Parameters.
Context {T : Torch}.
Hypothesis frame : parameters_frame.

Lemma forward_pass_refl (m : machine) : forward_pass m m.
Proof. split; [done |]. split; [done |]. exists []. by rewrite app_nil_r. Qed.

Lemma forward_pass_trans (m1 m2 m3 : machine) :
  forward_pass m1 m2 → forward_pass m2 m3 → forward_pass m1 m3.
Proof.
  intros (Hsd1 & Hfs1 & ops1 & Htr1 & Hops1) (Hsd2 & Hfs2 & ops2 & Htr2 & Hops2).
  split; [congruence |]. split; [congruence |].
  exists (ops1 ++ ops2). split; [| by apply Forall_app].
  by rewrite Htr2, Htr1, fmap_app, app_assoc.
Qed.

Lemma forward_pass_step (op : torch_op) (w : world) (m : machine) :
  forward_only op = true →
  MODEL_state_dict w = MODEL_state_dict (torch m) →
  forward_pass m (emit (EvTorch op) (set_torch w m)).
Proof.
  intros Hop Hsd. split; [done |]. split; [done |].
  exists [op]. split; [done |]. by constructor.
Qed.

Lemma forward_pass_validate_item (acc : loss) (r : result item) :
  respects forward_pass (validate_item acc r).
Proof.
  destruct frame as (_ & _ & _ & Hcall & Hloss & _).
  unfold validate_item. destruct r as [[[x y] | c] | e];
    [| apply respects_raise; exact forward_pass_refl ..].
  apply respects_bind; [exact forward_pass_trans | | intros out].
  { intros m. unfold torch_try. specialize (Hcall x (torch m)).
    destruct (MODEL_call x (torch m)) as [r w]. by apply forward_pass_step. }
  apply respects_bind; [exact forward_pass_trans | | intros l].
  { intros m. unfold torch_try. specialize (Hloss out y (torch m)).
    destruct (MSE_LOSS out y (torch m)) as [r w]. by apply forward_pass_step. }
  apply respects_ret; exact forward_pass_refl.
Qed.

Lemma forward_pass_validation_pass (ds : ChessDataset) :
  respects forward_pass (validation_pass ds).
Proof.
  destruct frame as (_ & Heval & _ & _ & _ & _ & Henter & Hexit).
  unfold validation_pass.
  apply respects_bind; [exact forward_pass_trans | | intros _].
  { intros m. by apply forward_pass_step. }
  apply respects_with_no_grad; [exact forward_pass_trans | ..].
  - intros m. by apply forward_pass_step.
  - intros m. by apply forward_pass_step.
  - apply respects_bind; [exact forward_pass_trans | | intros gen].
    + intros m. apply forward_pass_refl.
    + apply respects_foldM;
        [exact forward_pass_refl | exact forward_pass_trans |].
      intros s x. apply forward_pass_validate_item.
Qed.

Lemma step_mutates_refl (m : machine) : step_mutates m m.
Proof. exists []. by rewrite app_nil_r. Qed.

Lemma step_mutates_trans (m1 m2 m3 : machine) :
  step_mutates m1 m2 → step_mutates m2 m3 → step_mutates m1 m3.
Proof.
  intros (ops1 & Htr1 & Hsd1) (ops2 & Htr2 & Hsd2).
  exists (ops1 ++ ops2). split; [by rewrite Htr2, Htr1, fmap_app, app_assoc |].
  rewrite elem_of_app. intros Hno.
  rewrite Hsd2, Hsd1; [done | tauto | tauto].
Qed.

Lemma step_mutates_step (op : torch_op) (w : world) (m : machine) :
  (op ≠ OpStep → MODEL_state_dict w = MODEL_state_dict (torch m)) →
  step_mutates m (emit (EvTorch op) (set_torch w m)).
Proof.
  intros Hsd. exists [op]. split; [done |].
  rewrite list_elem_of_singleton. intros Hne. simpl. apply Hsd. congruence.
Qed.

Lemma step_mutates_train_sample (acc : loss) (input_data target : tensor) :
  respects step_mutates (train_sample acc input_data target).
Proof.
  destruct frame as (_ & _ & Hzero & Hcall & Hloss & Hback & _).
  unfold train_sample.
  apply respects_bind; [exact step_mutates_trans | | intros _].
  { intros m. apply step_mutates_step. intros _. apply Hzero. }
  apply respects_bind; [exact step_mutates_trans | | intros out].
  { intros m. unfold torch_try. specialize (Hcall input_data (torch m)).
    destruct (MODEL_call _ _). by apply step_mutates_step. }
  apply respects_bind; [exact step_mutates_trans | | intros l].
  { intros m. unfold torch_try. specialize (Hloss out target (torch m)).
    destruct (MSE_LOSS _ _ _). by apply step_mutates_step. }
  apply respects_bind; [exact step_mutates_trans | | intros _].
  { intros m. unfold torch_try. specialize (Hback l (torch m)).
    destruct (backward _ _). by apply step_mutates_step. }
  cbv zeta.
  apply respects_bind; [exact step_mutates_trans | | intros _].
  { intros m. unfold torch_try. destruct (OPTIMIZER_step _).
    apply step_mutates_step. done. }
  apply respects_ret; exact step_mutates_refl.
Qed.

Lemma step_mutates_training_pass (ds : ChessDataset) :
  respects step_mutates (training_pass ds).
Proof.
  destruct frame as (Htrain & _).
  unfold training_pass.
  apply respects_bind; [exact step_mutates_trans | | intros _].
  { intros m. apply step_mutates_step. intros _. apply Htrain. }
  apply respects_bind; [exact step_mutates_trans | | intros gen].
  { intros m. apply step_mutates_refl. }
  apply respects_foldM; [exact step_mutates_refl | exact step_mutates_trans |].
  intros acc r. unfold train_item. destruct r as [[[x y] | c] | e].
  - apply respects_foldM; [exact step_mutates_refl | exact step_mutates_trans |].
    intros a t. destruct (unpack2 t) as [[i tg] |];
      [apply step_mutates_train_sample | apply respects_raise; exact step_mutates_refl].
  - apply respects_foldM; [exact step_mutates_refl | exact step_mutates_trans |].
    intros a t. apply step_mutates_train_sample.
  - apply respects_raise; exact step_mutates_refl.
Qed.

(** C8.  Provided torch's operations other than the optimizer step leave
    the parameter state alone: the validation pass of lines 202-208 runs
    forward-only operations (no backward pass, no gradient reset, no
    optimizer step) and ends with the parameter state it started with,
    whether it returns or raises; and the training pass changes the
    parameter state only if it takes an optimizer step. *)
Theorem validation_pass_keeps_parameters (DATASET : ChessDataset) (m : machine) :
  (let m' := (validation_pass DATASET m).2 in
   MODEL_state_dict (torch m') = MODEL_state_dict (torch m)
   ∧ ∃ ops, trace m' = trace m ++ (EvTorch <$> ops)
            ∧ Forall (λ op, forward_only op = true) ops)
  ∧ (let m' := (training_pass DATASET m).2 in
     ∃ ops, trace m' = trace m ++ (EvTorch <$> ops)
            ∧ (OpStep ∉ ops →
               MODEL_state_dict (torch m') = MODEL_state_dict (torch m))).
Proof.
  split.
  - destruct (forward_pass_validation_pass DATASET m) as (Hsd & _ & Hops). done.
  - apply (step_mutates_training_pass DATASET m).
Qed.

End Parameters.

(** ** One epoch *)

Section Epoch.
Context {T : Torch}.

Lemma not_overfitting_foldM_Forall {A S} (P : A → Prop)
    (body : S → A → M S) (l : list A) (s : S) :
  Forall P l →
  (∀ s x, P x → returns not_overfitting (body s x)) →
  returns not_overfitting (foldM body l s).
Proof.
  intros Hl Hbody. revert s. induction Hl as [| x l Hx Hl IH]; intros s; simpl.
  - by intros m msg.
  - apply not_overfitting_bind; [by apply Hbody | apply IH].
Qed.

Lemma not_overfitting_torch_do (op : torch_op) (f : world → world) :
  returns not_overfitting (torch_do op f).
Proof. by intros m msg. Qed.

Lemma not_overfitting_torch_try {A} (op : torch_op) (f : world → option A * world) :
  returns not_overfitting (torch_try (A := A) op f).
Proof.
  intros m msg. unfold torch_try. destruct (f (torch m)) as [[a |] w]; done.
Qed.

Lemma not_overfitting_ret {A} (a : A) : returns not_overfitting (ret a).
Proof. by intros m msg. Qed.

Ltac not_overfitting_steps :=
  repeat lazymatch goal with
    | |- returns not_overfitting (bind _ _) =>
        apply not_overfitting_bind; [| intros ?]
    | |- returns not_overfitting (ret _) => apply not_overfitting_ret
    | |- returns not_overfitting (torch_do _ _) => apply not_overfitting_torch_do
    | |- returns not_overfitting (torch_try _ _) => apply not_overfitting_torch_try
    | |- returns not_overfitting (raise _) => by intros ? ?
    | |- returns not_overfitting (let _ := _ in _) => cbv zeta
    end.

Lemma not_overfitting_train_sample (acc : loss) (input_data target : tensor) :
  returns not_overfitting (train_sample acc input_data target).
Proof. unfold train_sample. not_overfitting_steps. Qed.

Lemma not_overfitting_train_item (acc : loss) (r : result item) :
  not_overfitting r → returns not_overfitting (train_item acc r).
Proof.
  intros Hr. unfold train_item. destruct r as [[[x y] | c] | e].
  - apply not_overfitting_foldM. intros a t.
    destruct (unpack2 t) as [[i tg] |]; [apply not_overfitting_train_sample |].
    not_overfitting_steps.
  - apply not_overfitting_foldM. intros a t. apply not_overfitting_train_sample.
  - intros m msg [= ->]. by apply (Hr msg).
Qed.

Lemma not_overfitting_training_pass (ds : ChessDataset) :
  returns not_overfitting (training_pass ds).
Proof.
  unfold training_pass.
  apply not_overfitting_bind; [apply not_overfitting_torch_do | intros _].
  apply (returns_bind (λ r, ∃ fs : gmap string (node row state_dict log_line),
                             r = Ok (__iter__ row_to_sample fs ds))).
  - intros m. by exists (fs m).
  - intros gen [fs0 [= ->]].
    apply (not_overfitting_foldM_Forall not_overfitting);
      [apply iter_not_overfitting |].
    intros s x Hx. by apply not_overfitting_train_item.
  - by intros e [fs0 ?].
Qed.

Lemma not_overfitting_validate_item (acc : loss) (r : result item) :
  not_overfitting r → returns not_overfitting (validate_item acc r).
Proof.
  intros Hr. unfold validate_item. destruct r as [[[x y] | c] | e].
  - not_overfitting_steps.
  - intros m msg. simpl. by destruct (length c =? 2)%nat.
  - intros m msg [= ->]. by apply (Hr msg).
Qed.

Lemma not_overfitting_validation_pass (ds : ChessDataset) :
  returns not_overfitting (validation_pass ds).
Proof.
  unfold validation_pass.
  apply not_overfitting_bind; [apply not_overfitting_torch_do | intros _].
  intros m. unfold with_no_grad.
  set (m1 := emit _ _).
  assert (Hbody : returns not_overfitting
            (bind (iterate ds) (λ gen, foldM validate_item gen loss_zero))).
  { apply (returns_bind (λ r, ∃ fs : gmap string (node row state_dict log_line),
                             r = Ok (__iter__ row_to_sample fs ds))).
    - intros m2. by exists (fs m2).
    - intros gen [fs0 [= ->]].
      apply (not_overfitting_foldM_Forall not_overfitting);
        [apply iter_not_overfitting |].
      intros s x Hx. by apply not_overfitting_validate_item.
    - by intros e [fs0 ?]. }
  specialize (Hbody m1). destruct (bind _ _ m1) as [r m2]. done.
Qed.

Lemma not_overfitting_divide (total : loss) (n : Z) :
  returns not_overfitting (divide total n).
Proof. unfold divide. by destruct (loss_div total n); intros m msg. Qed.

End Epoch.

(** ** The loop over the epochs *)

Section Loop.
Context {T : Torch}.
Variable cfg : config.
Variable log_path : string.
Variables DATASET_FOR_TRAIN DATASET_FOR_TEST : ChessDataset (tensor := tensor).
Hypothesis log_path_ne : log_path ≠ DIR_FOR_WEIGHTS.

(** One turn of the loop, with the weights directory and the log file in
    place: either it raises during the passes, having touched no file, or
    it prints and logs its epoch line, writes its checkpoint and ends with
    the overfitting test. *)
Lemma epoch_spec (test_losses : list loss) (epoch_number : Z) (m : machine)
    (entries : gmap string state_dict) (lines : list log_line) :
  fs m !! DIR_FOR_WEIGHTS = Some (Directory entries) →
  fs m !! log_path = Some (LogFile lines) →
  let run := epoch cfg log_path DATASET_FOR_TRAIN DATASET_FOR_TEST
               test_losses epoch_number m in
  ∃ ops,
    (∃ e, run.1 = Raise e ∧ (∀ msg, e ≠ Exception msg)
          ∧ fs run.2 = fs m
          ∧ trace run.2 = trace m ++ (EvTorch <$> ops))
    ∨ (∃ train_mse test_mse sd,
         let line := EpochLine epoch_number (NUMBER_OF_EPOCHS cfg) train_mse test_mse in
         run.1 = overfitting_test test_losses test_mse
         ∧ fs run.2 = <[DIR_FOR_WEIGHTS :=
                          Directory (<[checkpoint_name epoch_number := sd]> entries)]>
                        (<[log_path := LogFile (lines ++ [line])]> (fs m))
         ∧ trace run.2 = trace m ++ (EvTorch <$> ops)
                           ++ [EvPrint line; EvWrite line; EvFsync;
                               EvSave (checkpoint_name epoch_number) sd]).
Proof.
  intros Hdir Hlog run.
  assert (Hrun : run = epoch cfg log_path DATASET_FOR_TRAIN DATASET_FOR_TEST
                         test_losses epoch_number m) by done.
  clearbody run. unfold epoch, bind, divide in Hrun.
  pose proof (respects_training_pass DATASET_FOR_TRAIN m) as [Hfs1 [ops1 Htr1]].
  pose proof (not_overfitting_training_pass DATASET_FOR_TRAIN m) as Hno1.
  destruct (training_pass DATASET_FOR_TRAIN m) as [[total1 | e] m1]; simpl in *.
  2: { exists ops1. left. exists e. subst run. split_and!; try done.
       intros msg ->. by apply (Hno1 msg). }
  destruct (loss_div total1 (TRAIN_DATASET_LENGTH cfg)) as [train_mse |]; simpl in *.
  2: { exists ops1. left. exists ZeroDivisionError. subst run. by split_and!. }
  pose proof (respects_validation_pass DATASET_FOR_TEST m1) as [Hfs2 [ops2 Htr2]].
  pose proof (not_overfitting_validation_pass DATASET_FOR_TEST m1) as Hno2.
  assert (Htr12 : ∀ m2 : machine, trace m2 = trace m1 ++ (EvTorch <$> ops2) →
            trace m2 = trace m ++ (EvTorch <$> (ops1 ++ ops2))).
  { intros m2 ->. by rewrite Htr1, fmap_app, app_assoc. }
  exists (ops1 ++ ops2).
  destruct (validation_pass DATASET_FOR_TEST m1) as [[total2 | e] m2]; simpl in *.
  2: { left. exists e. subst run. simpl.
       split_and!; [done | | congruence | by apply Htr12].
       intros msg ->. by apply (Hno2 msg). }
  destruct (loss_div total2 (TEST_DATASET_LENGTH cfg)) as [test_mse |]; simpl in *.
  2: { left. exists ZeroDivisionError. subst run. simpl.
       split_and!; [done | done | congruence | by apply Htr12]. }
  right. exists train_mse, test_mse, (MODEL_state_dict (torch m2)).
  unfold LOG_FILE_write, torch_save, lift in Hrun. simpl in Hrun.
  rewrite Hfs2, Hfs1, Hlog in Hrun. simpl in Hrun.
  rewrite lookup_insert_ne in Hrun by done. rewrite Hdir in Hrun. simpl in Hrun.
  subst run. simpl. split_and!; [done | done |].
  rewrite (Htr12 m2 Htr2). by rewrite <- !app_assoc.
Qed.

End Loop.

(** ** Pure facts used for the loop *)

Lemma saved_torch {T : Torch} (ops : list torch_op) : saved (EvTorch <$> ops) = [].
Proof. induction ops as [| op ops IH]; [done | by simpl]. Qed.

Lemma printed_torch {T : Torch} (ops : list torch_op) : printed (EvTorch <$> ops) = [].
Proof. induction ops as [| op ops IH]; [done | by simpl]. Qed.

Lemma epoch_event_torch {T : Torch} (ops : list torch_op) :
  Forall (λ ev, epoch_event ev = true) (EvTorch <$> ops).
Proof. apply Forall_fmap, Forall_true. done. Qed.

Lemma saved_app {T : Torch} (tr1 tr2 : list event) :
  saved (tr1 ++ tr2) = saved tr1 ++ saved tr2.
Proof. apply omap_app. Qed.

Lemma printed_app {T : Torch} (tr1 tr2 : list event) :
  printed (tr1 ++ tr2) = printed tr1 ++ printed tr2.
Proof. apply omap_app. Qed.

Lemma string_length_app (s t : string) :
  String.length (s +:+ t) = (String.length s + String.length t)%nat.
Proof.
  induction s as [| a s IH]; [done |].
  change (String a s +:+ t) with (String a (s +:+ t)). simpl. by rewrite IH.
Qed.

Lemma string_app_inj_r (t s1 s2 : string) : s1 +:+ t = s2 +:+ t → s1 = s2.
Proof.
  revert s2. induction s1 as [| a s1 IH]; intros [| b s2] Heq; [done | | |].
  - change (t = String b (s2 +:+ t)) in Heq.
    apply (f_equal String.length) in Heq. simpl in Heq.
    rewrite string_length_app in Heq. lia.
  - change (String a (s1 +:+ t) = t) in Heq.
    apply (f_equal String.length) in Heq. simpl in Heq.
    rewrite string_length_app in Heq. lia.
  - change (String a (s1 +:+ t) = String b (s2 +:+ t)) in Heq.
    injection Heq as -> Heq. f_equal. by apply IH.
Qed.

(** The file name of a checkpoint determines the epoch number. *)
Lemma checkpoint_name_inj : Inj (=) (=) checkpoint_name.
Proof.
  intros n1 n2 Heq. unfold checkpoint_name in Heq.
  apply String.app_inj, string_app_inj_r in Heq. by apply (inj pretty).
Qed.

Lemma range2_NoDup (a b : Z) : NoDup (range2 a b).
Proof.
  unfold range2. apply NoDup_fmap_2; [| apply NoDup_seq].
  intros i j Hij. lia.
Qed.

Lemma take_range2 (k : nat) (a b : Z) :
  (k ≤ length (range2 a b))%nat →
  take k (range2 a b) = range2 a (a + Z.of_nat k).
Proof.
  unfold range2. rewrite length_fmap, length_seq. intros Hk.
  rewrite <- fmap_take, take_seq. f_equal. f_equal. lia.
Qed.

Lemma write_all_lookup {T : Torch} (files : list (string * state_dict))
    (entries : gmap string state_dict) (name : string) (x : state_dict) :
  NoDup files.*1 → (name, x) ∈ files → write_all files entries !! name = Some x.
Proof.
  unfold write_all. revert entries.
  induction files as [| [n y] files IH]; intros entries Hnd Hin; [by inversion Hin |].
  simpl in *. apply NoDup_cons in Hnd as [Hn Hnd].
  apply elem_of_cons in Hin as [[= -> ->] | Hin]; [| by apply IH].
  clear IH. revert entries. induction files as [| [n' y'] files IH]; intros entries; simpl.
  - apply lookup_insert_eq.
  - simpl in *. apply not_elem_of_cons in Hn as [Hne Hn].
    apply NoDup_cons in Hnd as [_ Hnd].
    rewrite insert_insert_ne by done. by apply IH.
Qed.

Section LoopSpec.
Context {T : Torch}.
Variable cfg : config.
Variable log_path : string.
Variables DATASET_FOR_TRAIN DATASET_FOR_TEST : ChessDataset (tensor := tensor).
Hypothesis log_path_ne : log_path ≠ DIR_FOR_WEIGHTS.

(** The loop started with an empty history, the weights directory and the
    log file in place.  It completes some number [k] of the epochs, in
    order; each completed epoch prints its line and writes its
    checkpoint; the history handed on is empty; the exception of line 229
    is not raised; and the loop returns only after all epochs. *)
Lemma epochs_spec (numbers : list Z) (m : machine)
    (entries : gmap string state_dict) (lines : list log_line) :
  fs m !! DIR_FOR_WEIGHTS = Some (Directory entries) →
  fs m !! log_path = Some (LogFile lines) →
  let run := epochs cfg log_path DATASET_FOR_TRAIN DATASET_FOR_TEST numbers [] m in
  ∃ (k : nat) (new : list event),
    (k ≤ length numbers)%nat
    ∧ trace run.2 = trace m ++ new
    ∧ Forall (λ ev, epoch_event ev = true) new
    ∧ printed new = take k numbers
    ∧ (saved new).*1 = checkpoint_name <$> take k numbers
    ∧ fs run.2 !! DIR_FOR_WEIGHTS = Some (Directory (write_all (saved new) entries))
    ∧ (∃ lines', fs run.2 !! log_path = Some (LogFile lines'))
    ∧ (∀ other, other ≠ DIR_FOR_WEIGHTS → other ≠ log_path →
                fs run.2 !! other = fs m !! other)
    ∧ not_overfitting run.1
    ∧ (∀ h, run.1 = Ok h → h = [] ∧ k = length numbers).
Proof.
  revert m entries lines.
  induction numbers as [| n rest IH]; intros m entries lines Hdir Hlog run.
  { exists 0%nat, []. subst run. simpl. rewrite app_nil_r.
    split_and!; try done; eauto. by intros h [= <-]. }
  assert (Hrun : run = bind (epoch cfg log_path DATASET_FOR_TRAIN DATASET_FOR_TEST [] n)
                         (epochs cfg log_path DATASET_FOR_TRAIN DATASET_FOR_TEST rest) m)
    by done.
  clearbody run. unfold bind in Hrun.
  destruct (epoch_spec cfg log_path DATASET_FOR_TRAIN DATASET_FOR_TEST log_path_ne
              [] n m entries lines Hdir Hlog) as [ops Hepoch].
  destruct (epoch cfg log_path DATASET_FOR_TRAIN DATASET_FOR_TEST [] n m)
    as [r1 m1]; simpl in Hepoch.
  destruct Hepoch as [(e & -> & Hne & Hfs & Htr) | (tl & el & sd & -> & Hfs & Htr)].
  - exists 0%nat, (EvTorch <$> ops). subst run. simpl.
    rewrite saved_torch, printed_torch, Hfs.
    split_and!; try done; eauto using epoch_event_torch; [lia |].
    intros msg [= ->]. by apply (Hne msg).
  - rewrite overfitting_test_nil in Hrun.
    set (line := EpochLine n (NUMBER_OF_EPOCHS cfg) tl el) in *.
    assert (Hdir1 : fs m1 !! DIR_FOR_WEIGHTS
                    = Some (Directory (<[checkpoint_name n := sd]> entries))).
    { rewrite Hfs. apply lookup_insert_eq. }
    assert (Hlog1 : fs m1 !! log_path = Some (LogFile (lines ++ [line]))).
    { rewrite Hfs. rewrite lookup_insert_ne by done. apply lookup_insert_eq. }
    destruct (IH m1 _ _ Hdir1 Hlog1)
      as (k & new & Hk & Htr' & Hev & Hpr & Hsv & Hdir' & Hlog' & Hoth & Hno & Hok).
    exists (S k), (((EvTorch <$> ops)
                    ++ [EvPrint line; EvWrite line; EvFsync;
                        EvSave (checkpoint_name n) sd]) ++ new).
    subst run.
    rewrite !saved_app, !printed_app, saved_torch, printed_torch.
    change (saved [EvPrint line; EvWrite line; EvFsync; EvSave (checkpoint_name n) sd])
      with [(checkpoint_name n, sd)].
    change (printed [EvPrint line; EvWrite line; EvFsync; EvSave (checkpoint_name n) sd])
      with [n].
    split_and!.
    + simpl. lia.
    + simpl. rewrite Htr', Htr. by rewrite <- !app_assoc.
    + apply Forall_app. split; [| done].
      apply Forall_app. split; [apply epoch_event_torch | by repeat constructor].
    + simpl. by rewrite Hpr.
    + rewrite app_nil_l, fmap_app, Hsv. done.
    + simpl. rewrite Hdir'. done.
    + done.
    + intros other Hne1 Hne2. rewrite Hoth by done. rewrite Hfs.
      by rewrite !lookup_insert_ne.
    + done.
    + intros h Hh. destruct (Hok h Hh) as [-> ->]. done.
Qed.

End LoopSpec.

(** ** The whole program *)

Lemma log_name_ne_weights (uuid : string) : log_name uuid ≠ DIR_FOR_WEIGHTS.
Proof. done. Qed.

Lemma log_name_ne_dataset (uuid : string) : log_name uuid ≠ DATASET_PATH.
Proof. done. Qed.

Lemma weights_ne_dataset : DIR_FOR_WEIGHTS ≠ DATASET_PATH.
Proof. done. Qed.

Section ProgramSpec.
Context {T : Torch}.
Variable cfg : config.

Lemma run_summary_raise (e : exn) (m : machine) :
  (∀ msg, e ≠ Exception msg) → printed (trace m) = [] → saved (trace m) = [] →
  run_summary cfg (Raise e, m).
Proof.
  intros He Hp Hs. exists 0%nat. simpl. rewrite Hp, Hs.
  split_and!; try done.
  - intros name sd Hin. by apply elem_of_nil in Hin.
  - intros msg [= ->]. by apply (He msg).
Qed.

Lemma main_spec (log_path : string) (m : machine) (lines : list log_line) :
  log_path ≠ DIR_FOR_WEIGHTS → log_path ≠ DATASET_PATH →
  fs m !! log_path = Some (LogFile lines) →
  printed (trace m) = [] → saved (trace m) = [] →
  run_summary cfg (main cfg log_path m).
Proof.
  intros Hlw Hld Hlog Hp Hs.
  pose proof weights_ne_dataset as Hwd.
  remember (main cfg log_path m) as run eqn:Hrun.
  unfold main, bind, os_path_exists, os_mkdir in Hrun. simpl in Hrun.
  destruct (fs m !! DIR_FOR_WEIGHTS) as [nd |] eqn:Hdir; simpl in Hrun.
  { subst run. by apply run_summary_raise. }
  rewrite Hdir in Hrun. simpl in Hrun.
  rewrite lookup_insert_ne in Hrun by done.
  destruct (fs m !! DATASET_PATH) as [nd |] eqn:Hdata; simpl in Hrun.
  2: { subst run. apply run_summary_raise; simpl; try done.
       - by rewrite printed_app, Hp.
       - by rewrite saved_app, Hs. }
  unfold LOG_FILE_write at 1 in Hrun. simpl in Hrun.
  rewrite lookup_insert_ne in Hrun by done. rewrite Hlog in Hrun. simpl in Hrun.
  set (files := <[log_path := LogFile (lines ++ [StartTime])]>
                  (<[DIR_FOR_WEIGHTS := Directory ∅]> (fs m))) in *.
  assert (Htrace : ∀ tr : list event,
            printed ((trace m ++ [EvMkdir DIR_FOR_WEIGHTS]) ++ tr) = printed tr
            ∧ saved ((trace m ++ [EvMkdir DIR_FOR_WEIGHTS]) ++ tr) = saved tr).
  { intros tr. by rewrite !printed_app, !saved_app, Hp, Hs. }
  pose proof (init_not_overfitting row_to_sample (CHUNK_SIZE cfg) files DATASET_PATH
                0 (TRAIN_DATASET_LENGTH cfg)) as Hno1.
  destruct (__init__ row_to_sample (CHUNK_SIZE cfg) files DATASET_PATH
              0 (TRAIN_DATASET_LENGTH cfg)) as [DATASET_FOR_TRAIN | e].
  2: { subst run. apply run_summary_raise; simpl.
       - intros msg ->. by apply (Hno1 msg).
       - apply (Htrace [EvWrite StartTime]).
       - apply (Htrace [EvWrite StartTime]). }
  pose proof (init_not_overfitting row_to_sample (CHUNK_SIZE cfg) files DATASET_PATH
                (TRAIN_DATASET_LENGTH cfg)
                (TRAIN_DATASET_LENGTH cfg + TEST_DATASET_LENGTH cfg)) as Hno2.
  destruct (__init__ row_to_sample (CHUNK_SIZE cfg) files DATASET_PATH
              (TRAIN_DATASET_LENGTH cfg)
              (TRAIN_DATASET_LENGTH cfg + TEST_DATASET_LENGTH cfg))
    as [DATASET_FOR_TEST | e].
  2: { subst run. apply run_summary_raise; simpl.
       - intros msg ->. by apply (Hno2 msg).
       - apply (Htrace [EvWrite StartTime]).
       - apply (Htrace [EvWrite StartTime]). }
  clear Hno1 Hno2.
  match type of Hrun with
  | context [epochs _ _ _ _ _ _ ?m0] => set (m1 := m0) in *
  end.
  assert (Hdir1 : fs m1 !! DIR_FOR_WEIGHTS = Some (Directory ∅)).
  { simpl. unfold files. rewrite lookup_insert_ne by done. apply lookup_insert_eq. }
  assert (Hlog1 : fs m1 !! log_path = Some (LogFile (lines ++ [StartTime]))).
  { simpl. unfold files. apply lookup_insert_eq. }
  destruct (epochs_spec cfg log_path DATASET_FOR_TRAIN DATASET_FOR_TEST Hlw
              (range2 1 (NUMBER_OF_EPOCHS cfg + 1)) m1 _ _ Hdir1 Hlog1)
    as (k & new & Hk & Htr & Hev & Hpr & Hsv & Hdir' & [lines' Hlog'] & _ & Hno & Hok).
  rewrite take_range2 in Hpr, Hsv by done.
  assert (Hnd : NoDup (saved new).*1).
  { rewrite Hsv. apply NoDup_fmap_2; [apply checkpoint_name_inj | apply range2_NoDup]. }
  assert (Hlen : length (range2 1 (NUMBER_OF_EPOCHS cfg + 1))
                 = Z.to_nat (NUMBER_OF_EPOCHS cfg)).
  { unfold range2. rewrite length_fmap, length_seq. lia. }
  destruct (epochs cfg log_path DATASET_FOR_TRAIN DATASET_FOR_TEST
              (range2 1 (NUMBER_OF_EPOCHS cfg + 1)) [] m1) as [[h | e] m2];
    simpl in Htr, Hdir', Hlog', Hno, Hok.
  - unfold LOG_FILE_write in Hrun. rewrite Hlog' in Hrun. subst run.
    exists k. simpl. rewrite Htr. simpl.
    destruct (Htrace ([EvWrite StartTime; EvTorch OpSetup] ++ new ++ [EvWrite StopTime]))
      as [Hp' Hs'].
    rewrite <- !app_assoc in Hp', Hs'. simpl in Hp', Hs'.
    rewrite <- !app_assoc. simpl. rewrite Hp', Hs'.
    change (printed (EvWrite StartTime :: EvTorch OpSetup :: new ++ [EvWrite StopTime]))
      with (printed (new ++ [EvWrite StopTime])).
    change (saved (EvWrite StartTime :: EvTorch OpSetup :: new ++ [EvWrite StopTime]))
      with (saved (new ++ [EvWrite StopTime])).
    rewrite printed_app, saved_app. simpl. rewrite !app_nil_r.
    split_and!; [done | done | | intros msg; discriminate |].
    + intros name sd Hin. exists (write_all (saved new) ∅).
      rewrite lookup_insert_ne by done. split; [done |].
      by apply write_all_lookup.
    + intros _. destruct (Hok h eq_refl) as [_ ->]. done.
  - subst run. exists k. simpl. rewrite Htr. simpl.
    destruct (Htrace ([EvWrite StartTime; EvTorch OpSetup] ++ new)) as [Hp' Hs'].
    rewrite <- !app_assoc in Hp', Hs'. simpl in Hp', Hs'.
    rewrite <- !app_assoc. simpl. rewrite Hp', Hs'.
    change (printed (EvWrite StartTime :: EvTorch OpSetup :: new)) with (printed new).
    change (saved (EvWrite StartTime :: EvTorch OpSetup :: new)) with (saved new).
    split_and!; [done | done | | | done].
    2: { intros msg [= ->]. by apply (Hno msg). }
    intros name sd Hin. exists (write_all (saved new) ∅).
    split; [done |]. by apply write_all_lookup.
Qed.

End ProgramSpec.

Section WholeRun.
Context {T : Torch}.
Variable cfg : config.
Variable uuid : string.

Lemma program_spec (w : world) (files : gmap string (node row state_dict log_line)) :
  run_summary cfg (program cfg uuid (boot w files)).
Proof.
  unfold program, bind, open_w. simpl.
  assert (Hmain : ∀ m : machine,
            fs m !! log_name uuid = Some (LogFile []) →
            printed (trace m) = [] → saved (trace m) = [] →
            run_summary cfg
              (let (r, m') := main cfg (log_name uuid) m in
               match r with
               | Ok _ => (Ok (), emit EvClose m')
               | Raise e => (Raise e, m')
               end)).
  { intros m Hlog Hp Hs.
    pose proof (main_spec cfg (log_name uuid) m [] (log_name_ne_weights uuid)
                  (log_name_ne_dataset uuid) Hlog Hp Hs) as (k & Hpr & Hsv & Hin & Hno & Hok).
    destruct (main cfg (log_name uuid) m) as [[[] | e] m']; simpl in *.
    - exists k. simpl. rewrite printed_app, saved_app, !app_nil_r.
      split_and!; try done.
    - exists k. simpl. split_and!; done. }
  destruct (files !! log_name uuid) as [[rows | lines | entries] |] eqn:Hlp.
  - apply Hmain; [apply lookup_insert_eq | done ..].
  - apply Hmain; [apply lookup_insert_eq | done ..].
  - by apply run_summary_raise.
  - apply Hmain; [apply lookup_insert_eq | done ..].
Qed.

(** One turn of the loop started with an empty history hands on an empty
    history and does not raise the exception of line 229. *)
Lemma epoch_empty_history (log_path : string)
    (DATASET_FOR_TRAIN DATASET_FOR_TEST : ChessDataset (tensor := tensor))
    (epoch_number : Z) :
  returns (λ r : result (list loss), not_overfitting r ∧ ∀ h, r = Ok h → h = [])
    (epoch cfg log_path DATASET_FOR_TRAIN DATASET_FOR_TEST [] epoch_number).
Proof.
  assert (Hraise : ∀ e, not_overfitting (A := loss) (Raise e) →
            not_overfitting (A := list loss) (Raise e)
            ∧ ∀ h : list loss, Raise e = Ok h → h = []).
  { intros e He. split; [| done]. intros msg [= ->]. by apply (He msg). }
  assert (Hunit : ∀ e, not_overfitting (A := ()) (Raise e) →
            not_overfitting (A := list loss) (Raise e)
            ∧ ∀ h : list loss, Raise e = Ok h → h = []).
  { intros e He. split; [| done]. intros msg [= ->]. by apply (He msg). }
  unfold epoch.
  apply (returns_bind not_overfitting);
    [apply not_overfitting_training_pass | intros total1 _ | exact Hraise].
  apply (returns_bind not_overfitting);
    [apply not_overfitting_divide | intros train_mse _ | exact Hraise].
  apply (returns_bind not_overfitting);
    [apply not_overfitting_validation_pass | intros total2 _ | exact Hraise].
  apply (returns_bind not_overfitting);
    [apply not_overfitting_divide | intros test_mse _ | exact Hraise].
  cbv zeta.
  apply (returns_bind not_overfitting); [by intros m msg | intros _ _ | exact Hunit].
  apply (returns_bind not_overfitting); [| intros _ _ | exact Hunit].
  { intros m msg. unfold LOG_FILE_write.
    by destruct (fs m !! log_path) as [[| |] |]. }
  apply (returns_bind not_overfitting); [by intros m msg | intros _ _ | exact Hunit].
  apply (returns_bind (λ r : result state_dict, not_overfitting r));
    [by intros m msg | intros sd _ |].
  2: { intros e He. split; [| done]. intros msg [= ->]. by apply (He msg). }
  apply (returns_bind not_overfitting); [| intros _ _ | exact Hunit].
  { intros m msg. unfold torch_save.
    by destruct (fs m !! DIR_FOR_WEIGHTS) as [[| |] |]. }
  intros m. unfold lift. simpl. split; [done |]. by intros h [= <-].
Qed.

Lemma epochs_empty_history (log_path : string)
    (DATASET_FOR_TRAIN DATASET_FOR_TEST : ChessDataset (tensor := tensor))
    (numbers : list Z) :
  returns (λ r : result (list loss), not_overfitting r ∧ ∀ h, r = Ok h → h = [])
    (epochs cfg log_path DATASET_FOR_TRAIN DATASET_FOR_TEST numbers []).
Proof.
  unfold epochs. induction numbers as [| n rest IH]; simpl.
  - intros m. simpl. split; [done |]. by intros h [= <-].
  - eapply returns_bind; [apply epoch_empty_history | |].
    + intros h [_ Hh]. rewrite (Hh h eq_refl). exact IH.
    + intros e [He _]. split; [done | done].
Qed.

End WholeRun.

(** ** The claims about the whole program *)


(** C5.  The overfitting test leaves a history of at most 15 losses as it
    is.  So the history, which starts empty (line 176), stays empty: after
    any number of turns of the loop the history handed on is empty, and
    the loop does not raise the exception of line 229.  A run of the program
    never ends with that exception; it ends with another exception, or
    it returns, and then every configured epoch 1, ..., NUMBER_OF_EPOCHS has
    printed its line and written its checkpoint. *)
Theorem history_stays_empty {T : Torch} (cfg : config) (uuid : string) :
  (∀ (test_losses : list loss) (epoch_test_loss : loss),
     (length test_losses ≤ 15)%nat →
     overfitting_test test_losses epoch_test_loss = Ok test_losses)
  ∧ (∀ (DATASET_FOR_TRAIN DATASET_FOR_TEST : ChessDataset (tensor := tensor))
     (numbers : list Z) (m : machine),
     let run := epochs cfg (log_name uuid) DATASET_FOR_TRAIN DATASET_FOR_TEST
                  numbers [] m in
     (∀ h, run.1 = Ok h → h = [])
     ∧ (∀ msg, run.1 ≠ Raise (Exception msg)))
  ∧ (∀ (w : world) (files : gmap string (node row state_dict log_line)),
       let run := program cfg uuid (boot w files) in
       (∀ msg, run.1 ≠ Raise (Exception msg))
       ∧ (run.1 = Ok ()
          ∨ ∃ e, run.1 = Raise e ∧ e ≠ Exception "Overfitting has begun!")
       ∧ (run.1 = Ok () →
          printed (trace run.2) = range2 1 (NUMBER_OF_EPOCHS cfg + 1)
          ∧ (saved (trace run.2)).*1
            = checkpoint_name <$> range2 1 (NUMBER_OF_EPOCHS cfg + 1))).
Proof.
  split; [| split].
  - intros test_losses epoch_test_loss Hlen. unfold overfitting_test.
    destruct (Nat.ltb_spec 15 (length test_losses)); [lia | done].
  - intros tr te numbers m run.
    destruct (epochs_empty_history cfg (log_name uuid) tr te numbers m) as [Hno Hh].
    split; [exact Hh | exact Hno].
  - intros w files run.
    destruct (program_spec cfg uuid w files) as (k & Hpr & Hsv & _ & Hno & Hok).
    fold run in Hpr, Hsv, Hno, Hok.
    split; [exact Hno |]. split.
    + destruct run.1 as [[] | e] eqn:Hr; [by left | right].
      exists e. split; [done |]. intros ->. by apply (Hno "Overfitting has begun!").
    + intros Hr. specialize (Hok Hr). subst k.
      assert (Heq : range2 1 (1 + Z.of_nat (Z.to_nat (NUMBER_OF_EPOCHS cfg)))
                    = range2 1 (NUMBER_OF_EPOCHS cfg + 1)).
      { unfold range2. do 2 f_equal. lia. }
      by rewrite <- Heq.
Qed.

(** A run that returns: three epochs on a table of ten rows. *)
Lemma history_stays_empty_witness :
  let run := program (T := Toy.torch) Toy.small_config "run" (boot (T := Toy.torch) 0 (Toy.table 10)) in
  run.1 = Ok ()
  ∧ printed (trace run.2) = [1; 2; 3]
  ∧ (saved (trace run.2)).*1
    = ["model_epoch_1.pt"; "model_epoch_2.pt"; "model_epoch_3.pt"].
Proof.
  intros run.
  assert (Hr : run.1 = Ok ()) by (vm_compute; reflexivity).
  split; [exact Hr |].
  exact (proj2 (proj2 (proj2 (proj2
           (history_stays_empty (T := Toy.torch) Toy.small_config "run"))
           0 (Toy.table 10))) Hr).
Defined.

(** C6.  With a fresh log file name: if the weights directory exists, or
    the table does not, the program raises [FileExistsError] having only
    opened the log file and, in the second case, made the directory; no
    torch operation has run, no epoch line is printed or logged and no
    checkpoint is written. *)
Theorem setup_errors_before_any_epoch {T : Torch} (cfg : config) (uuid : string)
    (w : world) (files : gmap string (node row state_dict log_line)) :
  files !! log_name uuid = None →
  is_Some (files !! DIR_FOR_WEIGHTS) ∨ files !! DATASET_PATH = None →
  let run := program cfg uuid (boot w files) in
  run.1 = Raise (FileExistsError
                   match files !! DIR_FOR_WEIGHTS with
                   | Some _ => WeightsDirExists
                   | None => DatasetNotFound
                   end)
  ∧ trace run.2 = EvOpen (log_name uuid)
                    :: match files !! DIR_FOR_WEIGHTS with
                       | Some _ => []
                       | None => [EvMkdir DIR_FOR_WEIGHTS]
                       end
  ∧ Forall (λ ev, epoch_event ev = false) (trace run.2)
  ∧ torch run.2 = w.
Proof.
  intros Hlp Hor run.
  pose proof (log_name_ne_weights uuid) as Hlw.
  pose proof (log_name_ne_dataset uuid) as Hld.
  pose proof weights_ne_dataset as Hwd.
  subst run. unfold program, bind, open_w. simpl. rewrite Hlp.
  unfold main, bind, os_path_exists, os_mkdir. simpl.
  rewrite !lookup_insert_ne by done.
  destruct (files !! DIR_FOR_WEIGHTS) as [nd |] eqn:Hdir; simpl.
  - split_and!; [done | done | by repeat constructor | done].
  - rewrite !lookup_insert_ne by done. rewrite Hdir. simpl.
    rewrite !lookup_insert_ne by done.
    destruct Hor as [[nd Hnd] | Hdata]; [done |]. rewrite Hdata. simpl.
    split_and!; [done | done | by repeat constructor | done].
Qed.

(** The weights directory is there; the table is missing. *)
Lemma setup_errors_before_any_epoch_witness :
  (let run := program (T := Toy.torch) Toy.small_config "run"
                (boot (T := Toy.torch) 0 {[ DIR_FOR_WEIGHTS := Directory ∅ ]}) in
   run.1 = Raise (FileExistsError WeightsDirExists)
   ∧ trace run.2 = [EvOpen "train_run.log"]
   ∧ Forall (λ ev, epoch_event ev = false) (trace run.2)
   ∧ torch run.2 = 0)
  ∧ (let run := program (T := Toy.torch) Toy.small_config "run" (boot (T := Toy.torch) 0 ∅) in
     run.1 = Raise (FileExistsError DatasetNotFound)
     ∧ trace run.2 = [EvOpen "train_run.log"; EvMkdir "weights"]
     ∧ Forall (λ ev, epoch_event ev = false) (trace run.2)
     ∧ torch run.2 = 0).
Proof.
  split.
  - assert (H := setup_errors_before_any_epoch (T := Toy.torch) Toy.small_config "run" 0
                   {[ DIR_FOR_WEIGHTS := Directory ∅ ]} eq_refl
                   (or_introl (ex_intro _ (Directory ∅) eq_refl))).
    vm_compute in H. vm_compute. exact H.
  - assert (H := setup_errors_before_any_epoch (T := Toy.torch) Toy.small_config "run" 0
                   ∅ eq_refl (or_intror eq_refl)).
    vm_compute in H. vm_compute. exact H.
Defined.

(** C7.  In every run the completed epochs are 1, ..., [k] for some [k];
    the checkpoints written are, in order, one per completed epoch, named
    [model_epoch_<n>.pt] after the number [n] of the epoch; these names are
    pairwise distinct; at the end of the run every one of them is in the
    weights directory with the content it was written with; and a run
    that returns has completed all [NUMBER_OF_EPOCHS] epochs, so [k] is
    that number.  Turn by turn: with the weights directory and the log
    file in place, an epoch that returns has printed its line and written
    exactly one checkpoint, under the name of its number, and has left
    the other files of the directory as they were. *)
Theorem one_checkpoint_per_epoch {T : Torch} (cfg : config) (uuid : string)
    (w : world) (files : gmap string (node row state_dict log_line)) :
  let run := program cfg uuid (boot w files) in
  (∃ k : nat,
    printed (trace run.2) = range2 1 (1 + Z.of_nat k)
    ∧ (saved (trace run.2)).*1 = checkpoint_name <$> range2 1 (1 + Z.of_nat k)
    ∧ NoDup (saved (trace run.2)).*1
    ∧ (∀ n1 n2, checkpoint_name n1 = checkpoint_name n2 → n1 = n2)
    ∧ (∀ name sd, (name, sd) ∈ saved (trace run.2) →
         ∃ entries, fs run.2 !! DIR_FOR_WEIGHTS = Some (Directory entries)
                    ∧ entries !! name = Some sd)
    ∧ (run.1 = Ok () → k = Z.to_nat (NUMBER_OF_EPOCHS cfg)))
  ∧ (∀ (DATASET_FOR_TRAIN DATASET_FOR_TEST : ChessDataset (tensor := tensor))
       (test_losses history : list loss) (epoch_number : Z) (m : machine)
       (entries : gmap string state_dict) (lines : list log_line),
       fs m !! DIR_FOR_WEIGHTS = Some (Directory entries) →
       fs m !! log_name uuid = Some (LogFile lines) →
       let turn := epoch cfg (log_name uuid) DATASET_FOR_TRAIN DATASET_FOR_TEST
                     test_losses epoch_number m in
       turn.1 = Ok history →
       ∃ sd, saved (trace turn.2)
             = saved (trace m) ++ [(checkpoint_name epoch_number, sd)]
             ∧ printed (trace turn.2) = printed (trace m) ++ [epoch_number]
             ∧ fs turn.2 !! DIR_FOR_WEIGHTS
               = Some (Directory (<[checkpoint_name epoch_number := sd]> entries))).
Proof.
  intros run. split.
  - destruct (program_spec cfg uuid w files) as (k & Hpr & Hsv & Hin & _ & Hok).
    fold run in Hpr, Hsv, Hin, Hok.
    exists k. split_and!; [done | done | | | done | done].
    + rewrite Hsv. apply NoDup_fmap_2; [apply checkpoint_name_inj | apply range2_NoDup].
    + intros n1 n2. apply checkpoint_name_inj.
  - intros tr te test_losses history n m entries lines Hdir Hlog turn Hturn.
    destruct (epoch_spec cfg (log_name uuid) tr te (log_name_ne_weights uuid)
                test_losses n m entries lines Hdir Hlog)
      as [ops [(e & He & _) | (train_mse & test_mse & sd & _ & Hfs & Htr)]].
    + fold turn in He. congruence.
    + fold turn in Hfs, Htr. exists sd.
      rewrite Htr, Hfs, !saved_app, !printed_app, saved_torch, printed_torch.
      split_and!; [done | done | apply lookup_insert_eq].
Qed.

(** Three epochs on a table of ten rows: the run returns, so [k] is 3 and
    the three checkpoints are in the weights directory. *)
Lemma one_checkpoint_per_epoch_witness :
  let run := program (T := Toy.torch) Toy.small_config "run"
               (boot (T := Toy.torch) 0 (Toy.table 10)) in
  run.1 = Ok ()
  ∧ printed (trace run.2) = [1; 2; 3]
  ∧ (saved (trace run.2)).*1
    = ["model_epoch_1.pt"; "model_epoch_2.pt"; "model_epoch_3.pt"]
  ∧ ∀ name sd, (name, sd) ∈ saved (trace run.2) →
      ∃ entries, fs run.2 !! DIR_FOR_WEIGHTS = Some (Directory entries)
                 ∧ entries !! name = Some sd.
Proof.
  intros run.
  assert (Hr : run.1 = Ok ()) by (vm_compute; reflexivity).
  destruct (one_checkpoint_per_epoch (T := Toy.torch) Toy.small_config "run"
              0 (Toy.table 10)) as [(k & Hpr & Hsv & _ & _ & Hin & Hk) _].
  fold run in Hpr, Hsv, Hin, Hk. rewrite (Hk Hr) in Hpr, Hsv.
  split_and!; [exact Hr | exact Hpr | exact Hsv | exact Hin].
Defined.

(** C9.  With a fresh log file name, no weights directory and no table:
    the program opens the log file, then makes the weights directory, then
    raises for the missing table; the empty directory and the empty log
    file are left behind. *)
Theorem setup_failure_leaves_files {T : Torch} (cfg : config) (uuid : string)
    (w : world) (files : gmap string (node row state_dict log_line)) :
  files !! log_name uuid = None →
  files !! DIR_FOR_WEIGHTS = None →
  files !! DATASET_PATH = None →
  let run := program cfg uuid (boot w files) in
  run.1 = Raise (FileExistsError DatasetNotFound)
  ∧ trace run.2 = [EvOpen (log_name uuid); EvMkdir DIR_FOR_WEIGHTS]
  ∧ fs run.2 = <[DIR_FOR_WEIGHTS := Directory ∅]> (<[log_name uuid := LogFile []]> files)
  ∧ fs run.2 !! DIR_FOR_WEIGHTS = Some (Directory ∅)
  ∧ fs run.2 !! log_name uuid = Some (LogFile []).
Proof.
  intros Hlp Hdir Hdata run.
  pose proof (log_name_ne_weights uuid) as Hlw.
  pose proof (log_name_ne_dataset uuid) as Hld.
  pose proof weights_ne_dataset as Hwd.
  subst run. unfold program, bind, open_w. simpl. rewrite Hlp.
  unfold main, bind, os_path_exists, os_mkdir. simpl.
  rewrite !lookup_insert_ne by done. rewrite Hdir. simpl.
  rewrite !lookup_insert_ne by done. rewrite Hdir. simpl.
  rewrite !lookup_insert_ne by done. rewrite Hdata. simpl.
  split_and!; [done | done | done | apply lookup_insert_eq |].
  rewrite lookup_insert_ne by done. apply lookup_insert_eq.
Qed.

(** An empty working directory. *)
Lemma setup_failure_leaves_files_witness :
  let run := program (T := Toy.torch) Toy.small_config "run" (boot (T := Toy.torch) 0 ∅) in
  run.1 = Raise (FileExistsError DatasetNotFound)
  ∧ trace run.2 = [EvOpen "train_run.log"; EvMkdir "weights"]
  ∧ fs run.2 = <[DIR_FOR_WEIGHTS := Directory ∅]> (<["train_run.log" := LogFile []]> ∅)
  ∧ fs run.2 !! "weights" = Some (Directory ∅)
  ∧ fs run.2 !! "train_run.log" = Some (LogFile []).
Proof.
  exact (setup_failure_leaves_files (T := Toy.torch) Toy.small_config "run" 0 ∅
           eq_refl eq_refl eq_refl).
Defined.

(** The toy torch changes its parameter state in the optimizer step only;
    a validation pass and a training pass over two samples. *)
Lemma validation_pass_keeps_parameters_witness :
  let DATASET :=
    {| _dataset_path := DATASET_PATH; _start_index := 4; _stop_index := 6;
       _chunk_size := 2; _is_test_dataset := true;
       _test_chunk := Some [(4, 4); (5, 5)] |} in
  let m := boot (T := Toy.torch) 7 (Toy.table 10) in
  parameters_frame (T := Toy.torch)
  ∧ (let m' := (validation_pass (T := Toy.torch) DATASET m).2 in
     MODEL_state_dict (torch m') = MODEL_state_dict (torch m)
     ∧ ∃ ops, trace m' = trace m ++ (EvTorch <$> ops)
              ∧ Forall (λ op, forward_only op = true) ops)
  ∧ (let m' := (training_pass (T := Toy.torch) DATASET m).2 in
     ∃ ops, trace m' = trace m ++ (EvTorch <$> ops)
            ∧ (OpStep ∉ ops →
               MODEL_state_dict (torch m') = MODEL_state_dict (torch m))).
Proof.
  intros DATASET m.
  assert (Hframe : parameters_frame (T := Toy.torch)).
  { unfold parameters_frame. simpl. split_and!; reflexivity. }
  split; [exact Hframe |].
  exact (validation_pass_keeps_parameters (T := Toy.torch) Hframe DATASET m).
Defined.

(** * Further properties *)

(** ** The data set: construction and the two kinds of pass *)

Section DatasetMore.
Context {row tensor state_dict log_line : Type}.
Variable decode : row → option (tensor * tensor).

Lemma get_gpu_chunk_ok (fs : gmap string (node row state_dict log_line))
    (path : string) (rows : list row) (start stop : Z)
    (samples : list (tensor * tensor)) :
  fs !! path = Some (CsvFile rows) →
  0 ≤ start → 0 ≤ stop → start ≤ Z.of_nat (length rows) →
  Forall2 (λ r s, decode r = Some s) rows samples →
  _get_gpu_chunk decode fs path start stop
  = Ok (take (Z.to_nat stop) (drop (Z.to_nat start) samples)).
Proof.
  intros Hfs Hstart Hstop Hlen Hdec.
  unfold _get_gpu_chunk, read_csv. rewrite Hfs.
  destruct (Z.ltb_spec stop 0); [lia |].
  destruct (Z.ltb_spec (Z.of_nat (length rows)) start); [lia |]. simpl.
  apply result_mapM_decode_row_ok. by apply Forall2_take, Forall2_drop.
Qed.

Lemma decodable_samples (rows : list row) :
  Forall (λ r, is_Some (decode r)) rows →
  ∃ samples, Forall2 (λ r s, decode r = Some s) rows samples.
Proof.
  induction 1 as [| r rows [s Hs] _ [samples IH]].
  - by exists [].
  - exists (s :: samples). by constructor.
Qed.

(** What the constructor returns when it returns. *)
Lemma init_ok_inv (CHUNK_SIZE : Z)
    (fs : gmap string (node row state_dict log_line)) (path : string)
    (start stop : Z) (ds : ChessDataset) :
  0 < CHUNK_SIZE → start < stop →
  __init__ decode CHUNK_SIZE fs path start stop = Ok ds →
  ∃ samples,
    _get_gpu_chunk decode fs path start stop = Ok samples
    ∧ ds = {| _dataset_path := path; _start_index := start; _stop_index := stop;
              _chunk_size := clamped_chunk_size CHUNK_SIZE start stop;
              _is_test_dataset := true; _test_chunk := Some samples |}.
Proof.
  intros Hc Hlt Hinit.
  destruct (init_never_training decode CHUNK_SIZE fs path start stop ds Hc Hlt Hinit)
    as [Htest _].
  unfold __init__ in Hinit.
  destruct (_ =? 0); [done |]. simpl in Hinit.
  destruct (negb _); simpl in Hinit; [| by injection Hinit as <-].
  destruct (_get_gpu_chunk decode fs path start stop) as [samples | e]; [| done].
  simpl in Hinit. injection Hinit as <-. by exists samples.
Qed.

Lemma init_raise (CHUNK_SIZE : Z)
    (fs : gmap string (node row state_dict log_line)) (path : string)
    (start stop : Z) (e : exn) :
  0 < CHUNK_SIZE → start < stop →
  _get_gpu_chunk decode fs path start stop = Raise e →
  __init__ decode CHUNK_SIZE fs path start stop = Raise e.
Proof.
  intros Hc Hlt Hchunk.
  destruct (__init__ decode CHUNK_SIZE fs path start stop) as [ds | e'] eqn:Hinit.
  - destruct (init_ok_inv _ _ _ _ _ _ Hc Hlt Hinit) as (samples & Hs & _). congruence.
  - unfold __init__ in Hinit.
    pose proof (clamped_chunk_size_bounds CHUNK_SIZE start stop Hc Hlt) as [Hpos _].
    destruct (Z.eqb_spec (clamped_chunk_size CHUNK_SIZE start stop) 0); [lia |].
    simpl in Hinit. destruct (negb _) eqn:Hneg; simpl in Hinit.
    + rewrite Hchunk in Hinit. simpl in Hinit. congruence.
    + exfalso. apply negb_false_iff, Z.eqb_eq in Hneg.
      assert (1 ≤ (stop - start) / clamped_chunk_size CHUNK_SIZE start stop).
      { pose proof (clamped_chunk_size_bounds CHUNK_SIZE start stop Hc Hlt).
        apply Z.div_le_lower_bound; lia. }
      lia.
Qed.

(** X1.  With a positive configured chunk size and a non-empty range, an
    object the constructor returns is a test data set: its chunk is
    loaded, its chunk size is the smaller of the configured size and the
    length of the range, and path and range are kept as given. *)
Theorem constructor_builds_test_dataset (CHUNK_SIZE : Z)
    (fs : gmap string (node row state_dict log_line)) (path : string)
    (start stop : Z) (ds : ChessDataset) :
  0 < CHUNK_SIZE → start < stop →
  __init__ decode CHUNK_SIZE fs path start stop = Ok ds →
  _is_test_dataset ds = true
  ∧ _test_chunk ds = match _get_gpu_chunk decode fs path start stop with
                     | Ok samples => Some samples
                     | Raise _ => None
                     end
  ∧ is_Some (_test_chunk ds)
  ∧ _chunk_size ds = Z.min CHUNK_SIZE (stop - start)
  ∧ _dataset_path ds = path
  ∧ _start_index ds = start
  ∧ _stop_index ds = stop
  ∧ __len__ ds = stop - start.
Proof.
  intros Hc Hlt Hinit.
  destruct (init_ok_inv _ _ _ _ _ _ Hc Hlt Hinit) as (samples & Hs & ->).
  rewrite Hs. simpl. split_and!; try done.
  unfold clamped_chunk_size. destruct (Z.gtb_spec CHUNK_SIZE (stop - start)); lia.
Qed.

Lemma length_window {A} (l : list A) (start stop : Z) :
  0 ≤ start → 0 ≤ stop → start ≤ Z.of_nat (length l) →
  Z.of_nat (length (take (Z.to_nat stop) (drop (Z.to_nat start) l)))
  = Z.min stop (Z.of_nat (length l) - start).
Proof. intros. rewrite length_take, length_drop. lia. Qed.

(** X2.  A test data set over [start, stop) of a table whose rows decode
    hands out the smaller of [stop] and (number of rows - [start])
    samples.  This is the length [__len__] reports exactly when
    [start = 0] and the table has [stop] rows or more, or when the table
    ends at row [stop]. *)
Theorem evaluation_pass_count (CHUNK_SIZE : Z)
    (fs : gmap string (node row state_dict log_line)) (path : string)
    (rows : list row) (start stop : Z) :
  0 < CHUNK_SIZE → 0 ≤ start < stop →
  fs !! path = Some (CsvFile rows) →
  start ≤ Z.of_nat (length rows) →
  Forall (λ r, is_Some (decode r)) rows →
  ∃ ds, __init__ decode CHUNK_SIZE fs path start stop = Ok ds
        ∧ Z.of_nat (length (yielded (__iter__ decode fs ds)))
          = Z.min stop (Z.of_nat (length rows) - start)
        ∧ (Z.of_nat (length (yielded (__iter__ decode fs ds))) = __len__ ds
           ↔ (start = 0 ∧ stop ≤ Z.of_nat (length rows))
             ∨ Z.of_nat (length rows) = stop).
Proof.
  intros Hc Hrange Hfs Hlen Hdec.
  destruct (decodable_samples rows Hdec) as [samples Hsamples].
  destruct (init_evaluation_pass decode CHUNK_SIZE fs path rows start stop
              (take (Z.to_nat stop) (drop (Z.to_nat start) samples)) Hc Hrange Hfs Hlen)
    as (ds & Hinit & _ & Hl & Hy).
  { by apply Forall2_take, Forall2_drop. }
  exists ds. split; [done |].
  rewrite Hy, length_fmap, Hl.
  pose proof (Forall2_length _ _ _ Hsamples) as Hlen'.
  rewrite length_window by lia. rewrite <- Hlen'. split; [done | lia].
Qed.

Lemma result_mapM_decode_row_fails (chunk : list row) :
  Exists (λ r, decode r = None) chunk →
  result_mapM (decode_row decode) chunk = Raise DecodeError.
Proof.
  induction chunk as [| r chunk IH]; intros Hex; [by inversion Hex |].
  simpl. unfold decode_row at 1. destruct (decode r) as [s |] eqn:Hr; [| done].
  simpl. apply Exists_inv in Hex as [Hex | Hex]; [congruence |].
  by rewrite IH.
Qed.

(** X3.  The constructor reads the table at once.  With a positive chunk
    size and a non-empty range it raises [FileNotFoundError] when there
    is no file at the path, and [DecodeError] when a row among the [stop]
    rows after row [start] cannot be decoded. *)
Theorem constructor_fails_eagerly (CHUNK_SIZE : Z)
    (fs : gmap string (node row state_dict log_line)) (path : string)
    (start stop : Z) :
  0 < CHUNK_SIZE → start < stop →
  (fs !! path = None →
   __init__ decode CHUNK_SIZE fs path start stop = Raise FileNotFoundError)
  ∧ (∀ rows, fs !! path = Some (CsvFile rows) →
       0 ≤ start ≤ Z.of_nat (length rows) →
       Exists (λ r, decode r = None)
         (take (Z.to_nat stop) (drop (Z.to_nat start) rows)) →
       __init__ decode CHUNK_SIZE fs path start stop = Raise DecodeError).
Proof.
  intros Hc Hlt. split.
  - intros Hfs. apply init_raise; [done | done |].
    unfold _get_gpu_chunk, read_csv. by rewrite Hfs.
  - intros rows Hfs Hstart Hex. apply init_raise; [done | done |].
    unfold _get_gpu_chunk, read_csv. rewrite Hfs.
    destruct (Z.ltb_spec stop 0); [lia |].
    destruct (Z.ltb_spec (Z.of_nat (length rows)) start); [lia |]. simpl.
    by apply result_mapM_decode_row_fails.
Qed.

Lemma yielded_all_ok {A} (f : A → result (item (tensor := tensor)))
    (g : A → item (tensor := tensor)) (l : list A) :
  Forall (λ x, f x = Ok (g x)) l → yielded (f <$> l) = g <$> l.
Proof.
  induction 1 as [| x l Hx _ IH]; [done |].
  rewrite !fmap_cons, Hx. simpl. by rewrite IH.
Qed.

Lemma elem_of_range (i n : Z) : i ∈ range n ↔ 0 ≤ i < n.
Proof.
  unfold range. rewrite list_elem_of_fmap. split.
  - intros (k & -> & Hk%elem_of_seq). lia.
  - intros Hi. exists (Z.to_nat i). split; [lia |]. apply elem_of_seq. lia.
Qed.

Lemma training_pass_yields
    (fs : gmap string (node row state_dict log_line)) (self : ChessDataset)
    (rows : list row) (samples : list (tensor * tensor)) :
  _is_test_dataset self = false →
  0 < _chunk_size self → 0 ≤ _start_index self →
  fs !! _dataset_path self = Some (CsvFile rows) →
  Forall2 (λ r s, decode r = Some s) rows samples →
  ((_stop_index self - _start_index self) / _chunk_size self - 1) * _start_index self
  ≤ Z.of_nat (length rows) →
  yielded (__iter__ decode fs self)
  = (λ i, Chunk (take (Z.to_nat (i * _start_index self + _chunk_size self))
                   (drop (Z.to_nat (i * _start_index self)) samples)))
      <$> range ((_stop_index self - _start_index self) / _chunk_size self).
Proof.
  intros Htest Hc Hstart Hfs Hdec Hn.
  unfold __iter__. rewrite Htest.
  destruct (Z.eqb_spec (_chunk_size self) 0); [lia |].
  apply yielded_all_ok. apply Forall_forall. intros i Hi%elem_of_range.
  rewrite (get_gpu_chunk_ok fs (_dataset_path self) rows _ _ samples); try done; nia.
Qed.

(** X4.  One pass over a data set in training mode, lines 99-104, on a
    table whose rows decode and that is long enough for every chunk to
    start inside it: there are [(stop - start) // chunk_size] chunks, and
    chunk [i] holds the [i * start + chunk_size] rows that follow row
    [i * start].  With [start = 0] every chunk is the first [chunk_size]
    rows of the table. *)
Theorem training_pass_chunks
    (fs : gmap string (node row state_dict log_line)) (self : ChessDataset)
    (rows : list row) (samples : list (tensor * tensor)) :
  _is_test_dataset self = false →
  0 < _chunk_size self → 0 ≤ _start_index self →
  fs !! _dataset_path self = Some (CsvFile rows) →
  Forall2 (λ r s, decode r = Some s) rows samples →
  let num_of_chunks := (_stop_index self - _start_index self) / _chunk_size self in
  (num_of_chunks - 1) * _start_index self ≤ Z.of_nat (length rows) →
  yielded (__iter__ decode fs self)
  = (λ i, Chunk (take (Z.to_nat (i * _start_index self + _chunk_size self))
                   (drop (Z.to_nat (i * _start_index self)) samples)))
      <$> range num_of_chunks
  ∧ (_start_index self = 0 →
     yielded (__iter__ decode fs self)
     = replicate (Z.to_nat num_of_chunks)
         (Chunk (take (Z.to_nat (_chunk_size self)) samples))).
Proof.
  intros Htest Hc Hstart Hfs Hdec n Hn.
  pose proof (training_pass_yields fs self rows samples Htest Hc Hstart Hfs Hdec Hn) as Hy.
  fold n in Hy. split; [exact Hy |].
  intros H0. rewrite Hy, H0.
  rewrite (const_fmap _ _ (Chunk (take (Z.to_nat (_chunk_size self)) samples))).
  - unfold range. by rewrite length_fmap, length_seq.
  - intros k i _. by rewrite Z.mul_0_r.
Qed.

Lemma length_samples_of_replicate (k : nat) (c : list (tensor * tensor)) :
  length (samples_of (replicate k (Chunk c))) = (k * length c)%nat.
Proof.
  unfold samples_of. induction k as [| k IH]; [done |].
  change (replicate (S k) (Chunk c)) with (Chunk c :: replicate k (Chunk c)).
  rewrite bind_cons, length_app, IH. lia.
Qed.

(** X12.  The docstring of [__init__] asks for
    [(stop - start) % chunk_size == 0].  For a data set in training mode
    that starts at row 0 of a table with at least [chunk_size] decodable
    rows, one pass hands out [(stop // chunk_size) * chunk_size] samples;
    this is the length [__len__] reports exactly when that remainder is
    zero. *)
Theorem training_pass_count
    (fs : gmap string (node row state_dict log_line)) (self : ChessDataset)
    (rows : list row) :
  _is_test_dataset self = false →
  _start_index self = 0 →
  0 ≤ _stop_index self →
  0 < _chunk_size self ≤ Z.of_nat (length rows) →
  fs !! _dataset_path self = Some (CsvFile rows) →
  Forall (λ r, is_Some (decode r)) rows →
  Z.of_nat (length (samples_of (yielded (__iter__ decode fs self))))
  = _stop_index self / _chunk_size self * _chunk_size self
  ∧ (Z.of_nat (length (samples_of (yielded (__iter__ decode fs self)))) = __len__ self
     ↔ (_stop_index self - _start_index self) `mod` _chunk_size self = 0).
Proof.
  intros Htest H0 Hstop Hc Hfs Hdec.
  destruct (decodable_samples rows Hdec) as [samples Hsamples].
  pose proof (Forall2_length _ _ _ Hsamples) as Hlen.
  pose proof (training_pass_yields fs self rows samples Htest ltac:(lia) ltac:(lia)
                Hfs Hsamples ltac:(rewrite H0; lia)) as Hy.
  rewrite H0 in Hy. rewrite Z.sub_0_r in Hy.
  assert (Hcount : Z.of_nat (length (samples_of (yielded (__iter__ decode fs self))))
                   = _stop_index self / _chunk_size self * _chunk_size self).
  { rewrite Hy.
    rewrite (const_fmap _ _ (Chunk (take (Z.to_nat (_chunk_size self)) samples)))
      by (intros k i _; by rewrite Z.mul_0_r).
    assert (Hq : 0 ≤ _stop_index self / _chunk_size self) by (apply Z.div_pos; lia).
    rewrite length_samples_of_replicate, length_take.
    unfold range. rewrite length_fmap, length_seq.
    rewrite Nat.min_l by lia. rewrite Nat2Z.inj_mul, !Z2Nat.id by lia. done. }
  split; [exact Hcount |].
  rewrite Hcount. unfold __len__. rewrite H0, Z.sub_0_r.
  pose proof (Z.div_mod (_stop_index self) (_chunk_size self) ltac:(lia)) as Hdm.
  split; lia.
Qed.

Lemma samples_of_Sample (l : list (tensor * tensor)) :
  samples_of (Sample <$> l) = l.
Proof.
  unfold samples_of. induction l as [| s l IH]; [done |].
  rewrite fmap_cons, bind_cons, IH. done.
Qed.

(** X5.  The two data sets of lines 168-170, on a table whose rows decode
    and that holds the training range: the training data set hands out
    the first [TRAIN_DATASET_LENGTH] rows, the test data set the
    [TRAIN_DATASET_LENGTH + TEST_DATASET_LENGTH] rows that follow them (as
    far as the table goes).  Together they are an initial part of the
    table in table order, so no row is in both. *)
Theorem train_test_split (cfg : config)
    (fs : gmap string (node row state_dict log_line))
    (rows : list row) (samples : list (tensor * tensor)) :
  0 < CHUNK_SIZE cfg → 0 < TRAIN_DATASET_LENGTH cfg → 0 < TEST_DATASET_LENGTH cfg →
  fs !! DATASET_PATH = Some (CsvFile rows) →
  TRAIN_DATASET_LENGTH cfg ≤ Z.of_nat (length rows) →
  Forall2 (λ r s, decode r = Some s) rows samples →
  ∃ DATASET_FOR_TRAIN DATASET_FOR_TEST,
    __init__ decode (CHUNK_SIZE cfg) fs DATASET_PATH 0 (TRAIN_DATASET_LENGTH cfg)
    = Ok DATASET_FOR_TRAIN
    ∧ __init__ decode (CHUNK_SIZE cfg) fs DATASET_PATH (TRAIN_DATASET_LENGTH cfg)
        (TRAIN_DATASET_LENGTH cfg + TEST_DATASET_LENGTH cfg)
      = Ok DATASET_FOR_TEST
    ∧ samples_of (yielded (__iter__ decode fs DATASET_FOR_TRAIN))
      = take (Z.to_nat (TRAIN_DATASET_LENGTH cfg)) samples
    ∧ samples_of (yielded (__iter__ decode fs DATASET_FOR_TEST))
      = take (Z.to_nat (TRAIN_DATASET_LENGTH cfg + TEST_DATASET_LENGTH cfg))
          (drop (Z.to_nat (TRAIN_DATASET_LENGTH cfg)) samples)
    ∧ samples_of (yielded (__iter__ decode fs DATASET_FOR_TRAIN))
        ++ samples_of (yielded (__iter__ decode fs DATASET_FOR_TEST))
      = take (Z.to_nat (TRAIN_DATASET_LENGTH cfg
                        + (TRAIN_DATASET_LENGTH cfg + TEST_DATASET_LENGTH cfg)))
          samples.
Proof.
  intros Hc Ha Hb Hfs Hlen Hdec.
  set (a := TRAIN_DATASET_LENGTH cfg) in *. set (b := TEST_DATASET_LENGTH cfg) in *.
  destruct (init_evaluation_pass decode (CHUNK_SIZE cfg) fs DATASET_PATH rows 0 a
              (take (Z.to_nat a) samples) Hc ltac:(lia) Hfs ltac:(lia))
    as (tr & Htr & _ & _ & Hy1).
  { by apply Forall2_take. }
  destruct (init_evaluation_pass decode (CHUNK_SIZE cfg) fs DATASET_PATH rows a (a + b)
              (take (Z.to_nat (a + b)) (drop (Z.to_nat a) samples))
              Hc ltac:(lia) Hfs ltac:(lia))
    as (te & Hte & _ & _ & Hy2).
  { by apply Forall2_take, Forall2_drop. }
  exists tr, te. rewrite Hy1, Hy2, !samples_of_Sample.
  split_and!; try done.
  rewrite take_take_drop. f_equal. lia.
Qed.

End DatasetMore.

(** The constructor call of line 168 on a table of 100 rows. *)
Lemma constructor_builds_test_dataset_witness :
  let ds := {| _dataset_path := DATASET_PATH; _start_index := 0; _stop_index := 81;
               _chunk_size := 9; _is_test_dataset := true;
               _test_chunk := Some ((λ i, (i, i)) <$> range 81) |} in
  _is_test_dataset ds = true
  ∧ _test_chunk ds = match _get_gpu_chunk Toy.decode (Toy.table 100) DATASET_PATH 0 81 with
                     | Ok samples => Some samples
                     | Raise _ => None
                     end
  ∧ is_Some (_test_chunk ds)
  ∧ _chunk_size ds = Z.min 9 (81 - 0)
  ∧ _dataset_path ds = DATASET_PATH
  ∧ _start_index ds = 0
  ∧ _stop_index ds = 81
  ∧ __len__ ds = 81 - 0.
Proof.
  intros ds.
  apply (constructor_builds_test_dataset Toy.decode 9 (Toy.table 100) DATASET_PATH 0 81 ds);
    [lia | lia | vm_compute; reflexivity].
Defined.

(** A range of 3 that reads 5 rows, and a range at the start of the table. *)
Lemma evaluation_pass_count_witness :
  (∃ ds, __init__ Toy.decode 9 (Toy.table 10) DATASET_PATH 2 5 = Ok ds
         ∧ Z.of_nat (length (yielded (__iter__ Toy.decode (Toy.table 10) ds)))
           = Z.min 5 (Z.of_nat (length (range 10)) - 2)
         ∧ (Z.of_nat (length (yielded (__iter__ Toy.decode (Toy.table 10) ds))) = __len__ ds
            ↔ (2 = 0 ∧ 5 ≤ Z.of_nat (length (range 10)))
              ∨ Z.of_nat (length (range 10)) = 5)).
Proof.
  apply (evaluation_pass_count Toy.decode 9 (Toy.table 10) DATASET_PATH (range 10) 2 5);
    [lia | lia | reflexivity | vm_compute; discriminate |].
  apply Forall_forall. intros r _. by eexists.
Defined.

(** No table at all, and a table whose rows do not decode. *)
Lemma constructor_fails_eagerly_witness :
  __init__ Toy.decode 9 (∅ : gmap string (node Z Z unit)) DATASET_PATH 0 4
  = Raise FileNotFoundError
  ∧ __init__ (λ _ : Z, None : option (Z * Z)) 9
      ({[ DATASET_PATH := CsvFile [7; 8] ]} : gmap string (node Z Z unit)) DATASET_PATH 0 4
    = Raise DecodeError.
Proof.
  split.
  - apply (constructor_fails_eagerly Toy.decode 9 ∅ DATASET_PATH 0 4); [lia | lia | done].
  - apply (constructor_fails_eagerly (λ _ : Z, None) 9
             {[ DATASET_PATH := CsvFile [7; 8] ]} DATASET_PATH 0 4 ltac:(lia) ltac:(lia))
      with (rows := [7; 8]); [reflexivity | simpl; lia |].
    by constructor.
Defined.

(** A training data set over [0, 6) with chunks of 2 on ten rows. *)
Lemma training_pass_chunks_witness :
  let self := Toy.training_dataset 0 6 2 in
  let samples := (λ i : Z, (i, i)) <$> range 10 in
  yielded (__iter__ Toy.decode (Toy.table 10) self)
  = (λ i, Chunk (take (Z.to_nat (i * _start_index self + _chunk_size self))
                   (drop (Z.to_nat (i * _start_index self)) samples)))
      <$> range ((_stop_index self - _start_index self) / _chunk_size self)
  ∧ (_start_index self = 0 →
     yielded (__iter__ Toy.decode (Toy.table 10) self)
     = replicate (Z.to_nat ((_stop_index self - _start_index self) / _chunk_size self))
         (Chunk (take (Z.to_nat (_chunk_size self)) samples))).
Proof.
  intros self samples.
  apply (training_pass_chunks Toy.decode (Toy.table 10) self (range 10) samples);
    [reflexivity | reflexivity | reflexivity | reflexivity | | vm_compute; discriminate].
  unfold samples. apply Forall2_fmap_r, Forall_Forall2_diag, Forall_forall.
  by intros r _.
Defined.

(** A training data set over [0, 7) with chunks of 2 on ten rows. *)
Lemma training_pass_count_witness :
  let self := Toy.training_dataset 0 7 2 in
  Z.of_nat (length (samples_of (yielded (__iter__ Toy.decode (Toy.table 10) self))))
  = _stop_index self / _chunk_size self * _chunk_size self
  ∧ (Z.of_nat (length (samples_of (yielded (__iter__ Toy.decode (Toy.table 10) self))))
     = __len__ self
     ↔ (_stop_index self - _start_index self) `mod` _chunk_size self = 0).
Proof.
  intros self.
  apply (training_pass_count Toy.decode (Toy.table 10) self (range 10));
    [reflexivity | reflexivity | vm_compute; discriminate
    | vm_compute; split; [reflexivity | discriminate] | reflexivity |].
  apply Forall_forall. intros r _. by eexists.
Defined.

(** Four training rows and two test rows asked for on a table of ten. *)
Lemma train_test_split_witness :
  let samples := (λ i : Z, (i, i)) <$> range 10 in
  ∃ DATASET_FOR_TRAIN DATASET_FOR_TEST,
    __init__ Toy.decode (CHUNK_SIZE Toy.small_config) (Toy.table 10) DATASET_PATH
      0 (TRAIN_DATASET_LENGTH Toy.small_config)
    = Ok DATASET_FOR_TRAIN
    ∧ __init__ Toy.decode (CHUNK_SIZE Toy.small_config) (Toy.table 10) DATASET_PATH
        (TRAIN_DATASET_LENGTH Toy.small_config)
        (TRAIN_DATASET_LENGTH Toy.small_config + TEST_DATASET_LENGTH Toy.small_config)
      = Ok DATASET_FOR_TEST
    ∧ samples_of (yielded (__iter__ Toy.decode (Toy.table 10) DATASET_FOR_TRAIN))
      = take (Z.to_nat (TRAIN_DATASET_LENGTH Toy.small_config)) samples
    ∧ samples_of (yielded (__iter__ Toy.decode (Toy.table 10) DATASET_FOR_TEST))
      = take (Z.to_nat (TRAIN_DATASET_LENGTH Toy.small_config
                        + TEST_DATASET_LENGTH Toy.small_config))
          (drop (Z.to_nat (TRAIN_DATASET_LENGTH Toy.small_config)) samples)
    ∧ samples_of (yielded (__iter__ Toy.decode (Toy.table 10) DATASET_FOR_TRAIN))
        ++ samples_of (yielded (__iter__ Toy.decode (Toy.table 10) DATASET_FOR_TEST))
      = take (Z.to_nat (TRAIN_DATASET_LENGTH Toy.small_config
                        + (TRAIN_DATASET_LENGTH Toy.small_config
                           + TEST_DATASET_LENGTH Toy.small_config)))
          samples.
Proof.
  intros samples.
  apply (train_test_split Toy.decode Toy.small_config (Toy.table 10) (range 10) samples);
    [reflexivity | reflexivity | reflexivity | reflexivity | vm_compute; discriminate |].
  unfold samples. apply Forall2_fmap_r, Forall_Forall2_diag, Forall_forall.
  by intros r _.
Defined.

(** ** The run: files, log and trace *)

Section RunRecords.
Context {T : Torch}.
Variable cfg : config.

Lemma io_events_app (tr1 tr2 : list event) :
  io_events (tr1 ++ tr2) = io_events tr1 ++ io_events tr2.
Proof. apply omap_app. Qed.

Lemma io_events_torch (ops : list torch_op) : io_events (EvTorch <$> ops) = [].
Proof. induction ops as [| op ops IH]; [done | by simpl]. Qed.

Lemma printed_io_events (tr : list event) : printed (io_events tr) = printed tr.
Proof.
  induction tr as [| ev tr IH]; [done |].
  destruct ev; simpl; try done; by rewrite <- IH.
Qed.

Lemma printed_blocks (recs : list (Z * loss * loss * state_dict)) :
  printed (recs ≫= epoch_block cfg) = (λ r, r.1.1.1) <$> recs.
Proof.
  induction recs as [| r recs IH]; [done |].
  rewrite bind_cons, printed_app, IH. done.
Qed.

Lemma saved_blocks (recs : list (Z * loss * loss * state_dict)) :
  saved (recs ≫= epoch_block cfg) = (λ r, (checkpoint_name r.1.1.1, r.2)) <$> recs.
Proof.
  induction recs as [| r recs IH]; [done |].
  rewrite bind_cons, saved_app, IH. done.
Qed.

(** The loop started with an empty history, the weights directory and the
    log file in place: the epochs completed are an initial part of the
    epoch numbers; outside torch the loop does, per completed epoch and
    in this order, the print, the write to the log, the fsync and the
    checkpoint; the log file grows by the epoch lines and the directory by
    the checkpoints. *)
Lemma epochs_trace (log_path : string)
    (DATASET_FOR_TRAIN DATASET_FOR_TEST : ChessDataset (tensor := tensor))
    (numbers : list Z) (m : machine)
    (entries : gmap string state_dict) (lines : list log_line) :
  log_path ≠ DIR_FOR_WEIGHTS →
  fs m !! DIR_FOR_WEIGHTS = Some (Directory entries) →
  fs m !! log_path = Some (LogFile lines) →
  let run := epochs cfg log_path DATASET_FOR_TRAIN DATASET_FOR_TEST numbers [] m in
  ∃ recs : list (Z * loss * loss * state_dict),
    (λ r, r.1.1.1) <$> recs = take (length recs) numbers
    ∧ (length recs ≤ length numbers)%nat
    ∧ io_events (trace run.2) = io_events (trace m) ++ (recs ≫= epoch_block cfg)
    ∧ fs run.2 !! log_path = Some (LogFile (lines ++ (epoch_line cfg <$> recs)))
    ∧ fs run.2 !! DIR_FOR_WEIGHTS
      = Some (Directory
                (write_all ((λ r, (checkpoint_name r.1.1.1, r.2)) <$> recs) entries))
    ∧ (∀ h, run.1 = Ok h → length recs = length numbers).
Proof.
  intros Hne. revert m entries lines.
  induction numbers as [| n rest IH]; intros m entries lines Hdir Hlog run.
  { exists []. subst run. simpl. rewrite !app_nil_r. split_and!; done. }
  assert (Hrun : run = bind (epoch cfg log_path DATASET_FOR_TRAIN DATASET_FOR_TEST [] n)
                         (epochs cfg log_path DATASET_FOR_TRAIN DATASET_FOR_TEST rest) m)
    by done.
  clearbody run. unfold bind in Hrun.
  destruct (epoch_spec cfg log_path DATASET_FOR_TRAIN DATASET_FOR_TEST Hne
              [] n m entries lines Hdir Hlog) as [ops Hepoch].
  destruct (epoch cfg log_path DATASET_FOR_TRAIN DATASET_FOR_TEST [] n m)
    as [r1 m1]; simpl in Hepoch.
  destruct Hepoch as [(e & -> & _ & Hfs & Htr) | (tl & el & sd & -> & Hfs & Htr)].
  - exists []. subst run. simpl.
    rewrite Htr, io_events_app, io_events_torch, !app_nil_r, Hfs.
    split_and!; try done. lia.
  - rewrite overfitting_test_nil in Hrun.
    set (line := EpochLine n (NUMBER_OF_EPOCHS cfg) tl el) in *.
    assert (Hdir1 : fs m1 !! DIR_FOR_WEIGHTS
                    = Some (Directory (<[checkpoint_name n := sd]> entries))).
    { rewrite Hfs. apply lookup_insert_eq. }
    assert (Hlog1 : fs m1 !! log_path = Some (LogFile (lines ++ [line]))).
    { rewrite Hfs. rewrite lookup_insert_ne by done. apply lookup_insert_eq. }
    destruct (IH m1 _ _ Hdir1 Hlog1) as (recs & Hnum & Hlen & Hio & Hlog' & Hdir' & Hok).
    exists ((n, tl, el, sd) :: recs). subst run.
    split_and!.
    + rewrite fmap_cons, Hnum. done.
    + simpl. lia.
    + rewrite Hio, Htr, !io_events_app, io_events_torch, bind_cons.
      rewrite <- !app_assoc. done.
    + rewrite Hlog', fmap_cons, <- app_assoc. done.
    + rewrite Hdir'. done.
    + intros h Hh. simpl. by rewrite (Hok h Hh).
Qed.

End RunRecords.

Section RunTrace.
Context {T : Torch}.
Variable cfg : config.

Lemma main_trace (log_path : string) (m : machine) (lines : list log_line)
    (nd : node row state_dict log_line) :
  log_path ≠ DIR_FOR_WEIGHTS → log_path ≠ DATASET_PATH →
  fs m !! log_path = Some (LogFile lines) →
  fs m !! DIR_FOR_WEIGHTS = None →
  fs m !! DATASET_PATH = Some nd →
  let run := main cfg log_path m in
  ∃ recs : list (Z * loss * loss * state_dict),
    (λ r, r.1.1.1) <$> recs = range2 1 (1 + Z.of_nat (length recs))
    ∧ io_events (trace run.2)
      = io_events (trace m) ++ [EvMkdir DIR_FOR_WEIGHTS; EvWrite StartTime]
          ++ (recs ≫= epoch_block cfg)
          ++ match run.1 with Ok _ => [EvWrite StopTime] | Raise _ => [] end
    ∧ fs run.2 !! log_path
      = Some (LogFile (lines ++ [StartTime] ++ (epoch_line cfg <$> recs)
                         ++ match run.1 with Ok _ => [StopTime] | Raise _ => [] end))
    ∧ fs run.2 !! DIR_FOR_WEIGHTS
      = Some (Directory
                (write_all ((λ r, (checkpoint_name r.1.1.1, r.2)) <$> recs) ∅))
    ∧ (run.1 = Ok () → length recs = Z.to_nat (NUMBER_OF_EPOCHS cfg)).
Proof.
  intros Hlw Hld Hlog Hdir Hdata run.
  pose proof weights_ne_dataset as Hwd.
  assert (Hrun : run = main cfg log_path m) by done. clearbody run.
  unfold main, bind, os_path_exists, os_mkdir in Hrun. simpl in Hrun.
  rewrite Hdir in Hrun. simpl in Hrun. rewrite Hdir in Hrun. simpl in Hrun.
  rewrite lookup_insert_ne in Hrun by done. rewrite Hdata in Hrun. simpl in Hrun.
  unfold LOG_FILE_write at 1 in Hrun. simpl in Hrun.
  rewrite lookup_insert_ne in Hrun by done. rewrite Hlog in Hrun. simpl in Hrun.
  set (files := <[log_path := LogFile (lines ++ [StartTime])]>
                  (<[DIR_FOR_WEIGHTS := Directory ∅]> (fs m))) in *.
  assert (Hfdir : files !! DIR_FOR_WEIGHTS = Some (Directory ∅)).
  { unfold files. rewrite lookup_insert_ne by done. apply lookup_insert_eq. }
  assert (Hflog : files !! log_path = Some (LogFile (lines ++ [StartTime]))).
  { unfold files. apply lookup_insert_eq. }
  assert (Hraise : ∀ e, run = (Raise e,
              emit (EvWrite StartTime)
                (set_fs files
                   (emit (EvMkdir DIR_FOR_WEIGHTS)
                      (set_fs (<[DIR_FOR_WEIGHTS := Directory ∅]> (fs m)) m)))) →
            ∃ recs : list (Z * loss * loss * state_dict),
              (λ r, r.1.1.1) <$> recs = range2 1 (1 + Z.of_nat (length recs))
              ∧ io_events (trace run.2)
                = io_events (trace m) ++ [EvMkdir DIR_FOR_WEIGHTS; EvWrite StartTime]
                    ++ (recs ≫= epoch_block cfg)
                    ++ match run.1 with Ok _ => [EvWrite StopTime] | Raise _ => [] end
              ∧ fs run.2 !! log_path
                = Some (LogFile (lines ++ [StartTime] ++ (epoch_line cfg <$> recs)
                                   ++ match run.1 with
                                      | Ok _ => [StopTime]
                                      | Raise _ => []
                                      end))
              ∧ fs run.2 !! DIR_FOR_WEIGHTS
                = Some (Directory
                          (write_all ((λ r, (checkpoint_name r.1.1.1, r.2)) <$> recs) ∅))
              ∧ (run.1 = Ok () → length recs = Z.to_nat (NUMBER_OF_EPOCHS cfg))).
  { intros e ->. exists []. simpl.
    rewrite !io_events_app, <- !app_assoc. simpl.
    split_and!; done. }
  destruct (__init__ row_to_sample (CHUNK_SIZE cfg) files DATASET_PATH
              0 (TRAIN_DATASET_LENGTH cfg)) as [DATASET_FOR_TRAIN | e];
    [| by apply (Hraise e)].
  destruct (__init__ row_to_sample (CHUNK_SIZE cfg) files DATASET_PATH
              (TRAIN_DATASET_LENGTH cfg)
              (TRAIN_DATASET_LENGTH cfg + TEST_DATASET_LENGTH cfg))
    as [DATASET_FOR_TEST | e]; [| by apply (Hraise e)].
  clear Hraise.
  match type of Hrun with
  | context [epochs _ _ _ _ _ _ ?m0] => set (m1 := m0) in *
  end.
  destruct (epochs_trace cfg log_path DATASET_FOR_TRAIN DATASET_FOR_TEST
              (range2 1 (NUMBER_OF_EPOCHS cfg + 1)) m1 ∅ (lines ++ [StartTime])
              Hlw Hfdir Hflog)
    as (recs & Hnum & Hlen & Hio & Hlog' & Hdir' & Hok).
  rewrite take_range2 in Hnum by done.
  assert (Hlenr : length (range2 1 (NUMBER_OF_EPOCHS cfg + 1))
                  = Z.to_nat (NUMBER_OF_EPOCHS cfg)).
  { unfold range2. rewrite length_fmap, length_seq. lia. }
  assert (Hio1 : io_events (trace m1)
                 = io_events (trace m) ++ [EvMkdir DIR_FOR_WEIGHTS; EvWrite StartTime]).
  { unfold m1. simpl. rewrite !io_events_app, <- !app_assoc. simpl. done. }
  rewrite Hio1 in Hio. clear Hio1.
  exists recs.
  destruct (epochs cfg log_path DATASET_FOR_TRAIN DATASET_FOR_TEST
              (range2 1 (NUMBER_OF_EPOCHS cfg + 1)) [] m1) as [[h | e] m2];
    simpl in Hio, Hlog', Hdir', Hok.
  - unfold LOG_FILE_write in Hrun. rewrite Hlog' in Hrun. subst run. simpl.
    rewrite io_events_app, Hio, <- !app_assoc. simpl.
    rewrite lookup_insert_eq, lookup_insert_ne, Hdir' by done.
    split_and!; try done. intros _. rewrite (Hok h eq_refl). done.
  - subst run. simpl. rewrite Hio, Hlog', Hdir', <- !app_assoc, !app_nil_r. simpl.
    split_and!; done.
Qed.

End RunTrace.

Section RunTheorems.
Context {T : Torch}.
Variable cfg : config.
Variable uuid : string.

Lemma program_trace (w : world) (files : gmap string (node row state_dict log_line))
    (nd : node row state_dict log_line) :
  files !! log_name uuid = None →
  files !! DIR_FOR_WEIGHTS = None →
  files !! DATASET_PATH = Some nd →
  let run := program cfg uuid (boot w files) in
  ∃ recs : list (Z * loss * loss * state_dict),
    (λ r, r.1.1.1) <$> recs = range2 1 (1 + Z.of_nat (length recs))
    ∧ io_events (trace run.2)
      = [EvOpen (log_name uuid); EvMkdir DIR_FOR_WEIGHTS; EvWrite StartTime]
          ++ (recs ≫= epoch_block cfg)
          ++ match run.1 with
             | Ok _ => [EvWrite StopTime; EvClose]
             | Raise _ => []
             end
    ∧ fs run.2 !! log_name uuid
      = Some (LogFile (StartTime :: (epoch_line cfg <$> recs)
                         ++ match run.1 with Ok _ => [StopTime] | Raise _ => [] end))
    ∧ fs run.2 !! DIR_FOR_WEIGHTS
      = Some (Directory
                (write_all ((λ r, (checkpoint_name r.1.1.1, r.2)) <$> recs) ∅))
    ∧ (run.1 = Ok () → length recs = Z.to_nat (NUMBER_OF_EPOCHS cfg)).
Proof.
  intros Hlp Hdir Hdata run.
  pose proof (log_name_ne_weights uuid) as Hlw.
  pose proof (log_name_ne_dataset uuid) as Hld.
  assert (Hrun : run = program cfg uuid (boot w files)) by done. clearbody run.
  unfold program, bind, open_w in Hrun. simpl in Hrun. rewrite Hlp in Hrun.
  match type of Hrun with
  | context [main _ _ ?m0] => set (m := m0) in *
  end.
  destruct (main_trace cfg (log_name uuid) m [] nd Hlw Hld)
    as (recs & Hnum & Hio & Hlog & Hdir' & Hok).
  { apply lookup_insert_eq. }
  { simpl. by rewrite lookup_insert_ne. }
  { simpl. by rewrite lookup_insert_ne. }
  exists recs.
  destruct (main cfg (log_name uuid) m) as [[[] | e] m']; simpl in *; subst run; simpl.
  - rewrite io_events_app, Hio. split_and!; try done.
    change (io_events [EvClose]) with [EvClose : event].
    simpl. do 3 f_equal. by rewrite <- app_assoc.
  - rewrite app_nil_r in Hlog. rewrite Hio, !app_nil_r. split_and!; done.
Qed.

Lemma dom_write_all (files : list (string * state_dict))
    (entries : gmap string state_dict) :
  dom (write_all files entries) = dom entries ∪ list_to_set files.*1.
Proof.
  unfold write_all. revert entries.
  induction files as [| [name sd] files IH]; intros entries; simpl.
  - by rewrite (right_id_L ∅ (∪)).
  - rewrite IH, dom_insert_L.
    rewrite (comm_L (∪) {[name]} (dom entries)), <- (assoc_L (∪)). done.
Qed.

(** X7.  A run in a directory with the table, without weights directory,
    under a fresh log file name.  Outside torch it does, in this order:
    open the log, make the directory, write the start line; per completed
    epoch 1, 2, ... the print, the same line to the log, the fsync and the
    checkpoint; and, only when it returns, the stop line and the close.
    At the end the log file holds the start line, the lines of the
    completed epochs in order, and the stop line exactly when the run
    returned, which it does only after all configured epochs. *)
Theorem run_log_and_trace (w : world)
    (files : gmap string (node row state_dict log_line))
    (nd : node row state_dict log_line) :
  files !! log_name uuid = None →
  files !! DIR_FOR_WEIGHTS = None →
  files !! DATASET_PATH = Some nd →
  let run := program cfg uuid (boot w files) in
  ∃ recs : list (Z * loss * loss * state_dict),
    (λ r, r.1.1.1) <$> recs = range2 1 (1 + Z.of_nat (length recs))
    ∧ io_events (trace run.2)
      = [EvOpen (log_name uuid); EvMkdir DIR_FOR_WEIGHTS; EvWrite StartTime]
          ++ (recs ≫= epoch_block cfg)
          ++ match run.1 with
             | Ok _ => [EvWrite StopTime; EvClose]
             | Raise _ => []
             end
    ∧ fs run.2 !! log_name uuid
      = Some (LogFile (StartTime :: (epoch_line cfg <$> recs)
                         ++ match run.1 with Ok _ => [StopTime] | Raise _ => [] end))
    ∧ (run.1 = Ok () → length recs = Z.to_nat (NUMBER_OF_EPOCHS cfg)).
Proof.
  intros Hlp Hdir Hdata run.
  destruct (program_trace w files nd Hlp Hdir Hdata)
    as (recs & Hnum & Hio & Hlog & _ & Hok).
  exists recs. split_and!; done.
Qed.

(** X8.  A run started without weights directory, under a fresh log file
    name: at the end the weights directory exists and holds exactly the
    checkpoint files of the epochs whose line was printed, and nothing
    else. *)
Theorem weights_directory_contents (w : world)
    (files : gmap string (node row state_dict log_line)) :
  files !! log_name uuid = None →
  files !! DIR_FOR_WEIGHTS = None →
  let run := program cfg uuid (boot w files) in
  ∃ entries : gmap string state_dict,
    fs run.2 !! DIR_FOR_WEIGHTS = Some (Directory entries)
    ∧ dom entries = list_to_set (checkpoint_name <$> printed (trace run.2)).
Proof.
  intros Hlp Hdir run.
  destruct (files !! DATASET_PATH) as [nd |] eqn:Hdata.
  - destruct (program_trace w files nd Hlp Hdir Hdata)
      as (recs & Hnum & Hio & _ & Hdir' & _).
    fold run in Hio, Hdir'.
    eexists. split; [exact Hdir' |].
    assert (Htail : printed (match run.1 with
                             | Ok _ => [EvWrite StopTime; EvClose]
                             | Raise _ => []
                             end) = []) by by destruct run.1.
    rewrite dom_write_all, dom_empty_L, (left_id_L ∅ (∪)).
    rewrite <- (printed_io_events (trace run.2)), Hio.
    rewrite !printed_app, printed_blocks, Htail, app_nil_r.
    f_equal. simpl. by rewrite <- !list_fmap_compose.
  - pose proof (log_name_ne_weights uuid) as Hlw.
    pose proof (log_name_ne_dataset uuid) as Hld.
    pose proof weights_ne_dataset as Hwd.
    subst run. unfold program, bind, open_w. simpl. rewrite Hlp.
    unfold main, bind, os_path_exists, os_mkdir. simpl.
    rewrite !lookup_insert_ne by done. rewrite Hdir. simpl.
    rewrite !lookup_insert_ne by done. rewrite Hdir. simpl.
    rewrite !lookup_insert_ne by done. rewrite Hdata. simpl.
    exists ∅. split; [apply lookup_insert_eq | by rewrite dom_empty_L].
Qed.

End RunTheorems.

(** Three epochs on a table of ten rows. *)
Lemma run_log_and_trace_witness :
  let run := program (T := Toy.torch) Toy.small_config "run"
               (boot (T := Toy.torch) 0 (Toy.table 10)) in
  ∃ recs : list (Z * Z * Z * Z),
    (λ r, r.1.1.1) <$> recs = range2 1 (1 + Z.of_nat (length recs))
    ∧ io_events (trace run.2)
      = [EvOpen (log_name "run"); EvMkdir DIR_FOR_WEIGHTS; EvWrite StartTime]
          ++ (recs ≫= epoch_block (T := Toy.torch) Toy.small_config)
          ++ match run.1 with
             | Ok _ => [EvWrite StopTime; EvClose]
             | Raise _ => []
             end
    ∧ fs run.2 !! log_name "run"
      = Some (LogFile (StartTime :: (epoch_line (T := Toy.torch) Toy.small_config <$> recs)
                         ++ match run.1 with Ok _ => [StopTime] | Raise _ => [] end))
    ∧ (run.1 = Ok () → length recs = Z.to_nat (NUMBER_OF_EPOCHS Toy.small_config)).
Proof.
  exact (run_log_and_trace (T := Toy.torch) Toy.small_config "run" 0 (Toy.table 10)
           (CsvFile (range 10)) eq_refl eq_refl eq_refl).
Defined.

(** Three epochs on a table of ten rows. *)
Lemma weights_directory_contents_witness :
  let run := program (T := Toy.torch) Toy.small_config "run"
               (boot (T := Toy.torch) 0 (Toy.table 10)) in
  ∃ entries : gmap string Z,
    fs run.2 !! DIR_FOR_WEIGHTS = Some (Directory entries)
    ∧ dom entries = list_to_set (checkpoint_name <$> printed (trace run.2)).
Proof.
  exact (weights_directory_contents (T := Toy.torch) Toy.small_config "run" 0
           (Toy.table 10) eq_refl eq_refl).
Defined.

(** ** The files a run leaves alone *)

Section OtherFiles.
Context {T : Torch}.
Variable cfg : config.
Variable log_path : string.












End OtherFiles.


(** ** The training loop on a test data set *)

Section TupleLoop.
Context {T : Torch}.

Lemma train_sample_raises (acc : loss) (input_data target : tensor) :
  returns (λ r, ∀ e, r = Raise e → e = TorchError)
    (train_sample acc input_data target).
Proof.
  assert (Htry : ∀ A op (f : world → option A * world),
            returns (λ r, ∀ e, r = Raise e → e = TorchError) (torch_try op f)).
  { intros A op f m e. unfold torch_try.
    destruct (f (torch m)) as [[a |] w0]; simpl; [done | by intros [= <-]]. }
  assert (Hraise : ∀ A B e, (∀ e' : exn, Raise (A := A) e = Raise e' → e' = TorchError) →
            ∀ e' : exn, Raise (A := B) e = Raise e' → e' = TorchError).
  { intros A B e He e' [= <-]. by apply He. }
  unfold train_sample.
  apply (returns_bind (λ r, ∀ e, r = Raise e → e = TorchError));
    [by intros m e | intros _ _ | apply Hraise].
  apply (returns_bind (λ r, ∀ e, r = Raise e → e = TorchError));
    [apply Htry | intros out _ | apply Hraise].
  apply (returns_bind (λ r, ∀ e, r = Raise e → e = TorchError));
    [apply Htry | intros l _ | apply Hraise].
  apply (returns_bind (λ r, ∀ e, r = Raise e → e = TorchError));
    [apply Htry | intros _ _ | apply Hraise].
  cbv zeta.
  apply (returns_bind (λ r, ∀ e, r = Raise e → e = TorchError));
    [apply Htry | intros _ _ | apply Hraise].
  by intros m e.
Qed.

(** The loop of lines 185-186 over a test data set: its first item is the
    tuple [(x, y)] of a sample, the inner loop takes [x] and then [y] for
    a pair [input_data, target], and a label tensor that does not unpack
    into two ends the pass with [ValueError], unless torch has raised
    before on what [x] unpacked into. *)
Lemma training_pass_on_samples (ds : ChessDataset (tensor := tensor)) (m : machine)
    (x y : tensor) (rest : list (tensor * tensor)) :
  _is_test_dataset ds = true →
  _test_chunk ds = Some ((x, y) :: rest) →
  unpack2 y = None →
  (training_pass ds m).1 = Raise ValueError ∨ (training_pass ds m).1 = Raise TorchError.
Proof.
  intros Htest Hchunk Hy.
  unfold training_pass, bind, torch_do, iterate, __iter__. simpl.
  rewrite Htest, Hchunk. simpl. unfold bind.
  destruct (unpack2 x) as [[a b] |]; [| by left].
  set (m1 := emit _ _).
  pose proof (train_sample_raises loss_zero a b m1) as Hts.
  destruct (train_sample loss_zero a b m1) as [[acc | e] m2]; simpl in *.
  - rewrite Hy. simpl. by left.
  - right. by rewrite (Hts e eq_refl).
Qed.

Lemma range2_cons (a b : Z) : a < b → range2 a b = a :: range2 (a + 1) b.
Proof.
  intros Hlt. unfold range2.
  replace (Z.to_nat (b - a)) with (S (Z.to_nat (b - (a + 1)))) by lia.
  simpl. f_equal; [lia |].
  rewrite <- fmap_S_seq, <- list_fmap_compose.
  apply list_fmap_ext. intros _ i _. simpl. lia.
Qed.

Variable cfg : config.

Lemma main_first_epoch_raises (log_path : string) (m : machine)
    (lines : list log_line) (rows : list row) (samples : list (tensor * tensor)) :
  log_path ≠ DIR_FOR_WEIGHTS → log_path ≠ DATASET_PATH →
  fs m !! log_path = Some (LogFile lines) →
  fs m !! DIR_FOR_WEIGHTS = None →
  fs m !! DATASET_PATH = Some (CsvFile rows) →
  0 < CHUNK_SIZE cfg →
  0 < TRAIN_DATASET_LENGTH cfg ≤ Z.of_nat (length rows) →
  0 < TEST_DATASET_LENGTH cfg →
  0 < NUMBER_OF_EPOCHS cfg →
  Forall2 (λ r s, row_to_sample r = Some s) rows samples →
  (∀ s, s ∈ samples → unpack2 s.2 = None) →
  let run := main cfg log_path m in
  (run.1 = Raise ValueError ∨ run.1 = Raise TorchError)
  ∧ fs run.2 = <[log_path := LogFile (lines ++ [StartTime])]>
                 (<[DIR_FOR_WEIGHTS := Directory ∅]> (fs m))
  ∧ ∃ ops, trace run.2
           = trace m ++ [EvMkdir DIR_FOR_WEIGHTS; EvWrite StartTime] ++ (EvTorch <$> ops).
Proof.
  intros Hlw Hld Hlog Hdir Hdata Hc Ha Hb Hn Hdec Hunpack run.
  pose proof weights_ne_dataset as Hwd.
  assert (Hrun : run = main cfg log_path m) by done. clearbody run.
  unfold main, bind, os_path_exists, os_mkdir in Hrun. simpl in Hrun.
  rewrite Hdir in Hrun. simpl in Hrun. rewrite Hdir in Hrun. simpl in Hrun.
  rewrite lookup_insert_ne in Hrun by done. rewrite Hdata in Hrun. simpl in Hrun.
  unfold LOG_FILE_write at 1 in Hrun. simpl in Hrun.
  rewrite lookup_insert_ne in Hrun by done. rewrite Hlog in Hrun. simpl in Hrun.
  set (files := <[log_path := LogFile (lines ++ [StartTime])]>
                  (<[DIR_FOR_WEIGHTS := Directory ∅]> (fs m))) in *.
  assert (Hfdata : files !! DATASET_PATH = Some (CsvFile rows)).
  { unfold files. by rewrite !lookup_insert_ne. }
  pose proof (Forall2_length _ _ _ Hdec) as Hlen.
  destruct (init_evaluation_pass row_to_sample (CHUNK_SIZE cfg) files DATASET_PATH rows
              0 (TRAIN_DATASET_LENGTH cfg)
              (take (Z.to_nat (TRAIN_DATASET_LENGTH cfg)) samples)
              Hc ltac:(lia) Hfdata ltac:(lia))
    as (tr & Htr & Htest & _ & _).
  { by apply Forall2_take. }
  destruct (init_ok_inv row_to_sample (CHUNK_SIZE cfg) files DATASET_PATH
              0 (TRAIN_DATASET_LENGTH cfg) tr Hc ltac:(lia) Htr)
    as (chunk & Hchunk & Htr_eq).
  rewrite (get_gpu_chunk_ok row_to_sample files DATASET_PATH rows 0
             (TRAIN_DATASET_LENGTH cfg) samples Hfdata ltac:(lia) ltac:(lia) ltac:(lia) Hdec)
    in Hchunk.
  injection Hchunk as <-.
  destruct (init_evaluation_pass row_to_sample (CHUNK_SIZE cfg) files DATASET_PATH rows
              (TRAIN_DATASET_LENGTH cfg)
              (TRAIN_DATASET_LENGTH cfg + TEST_DATASET_LENGTH cfg)
              (take (Z.to_nat (TRAIN_DATASET_LENGTH cfg + TEST_DATASET_LENGTH cfg))
                 (drop (Z.to_nat (TRAIN_DATASET_LENGTH cfg)) samples))
              Hc ltac:(lia) Hfdata ltac:(lia))
    as (te & Hte & _).
  { by apply Forall2_take, Forall2_drop. }
  rewrite Htr, Hte in Hrun.
  rewrite (range2_cons 1 (NUMBER_OF_EPOCHS cfg + 1)) in Hrun by lia.
  unfold epochs in Hrun. simpl in Hrun. unfold bind, epoch, bind in Hrun.
  match type of Hrun with
  | context [training_pass tr ?m0] => set (m1 := m0) in *
  end.
  destruct samples as [| [x y] samples']; [simpl in Hlen; lia |].
  assert (Htake : take (Z.to_nat (TRAIN_DATASET_LENGTH cfg)) ((x, y) :: samples')
                  = (x, y) :: take (Z.to_nat (TRAIN_DATASET_LENGTH cfg) - 1) samples').
  { destruct (Z.to_nat (TRAIN_DATASET_LENGTH cfg)) as [| k] eqn:Hk; [lia |].
    simpl. by rewrite Nat.sub_0_r. }
  assert (Hchunk : _test_chunk tr
                   = Some ((x, y) :: take (Z.to_nat (TRAIN_DATASET_LENGTH cfg) - 1) samples')).
  { rewrite Htr_eq. simpl. by rewrite Htake. }
  pose proof (training_pass_on_samples tr m1 x y _ Htest Hchunk
                (Hunpack (x, y) ltac:(by left))) as Hpass.
  pose proof (respects_training_pass tr m1) as [Hfs [ops Hops]].
  destruct (training_pass tr m1) as [[total | e] m2]; simpl in *;
    [by destruct Hpass |].
  subst run. simpl. split; [by destruct Hpass as [[= ->] | [= ->]]; [left | right] |].
  split; [by rewrite Hfs |].
  exists (OpSetup :: ops). rewrite Hops. rewrite <- !app_assoc. done.
Qed.

End TupleLoop.

(** X9.  A run with the table in place, a non-empty training range inside
    it, at least one epoch configured, and label tensors that do not
    unpack into two (line 71 builds them with a first dimension of 1):
    the training data set is a test data set, so the loop of lines
    185-186 is handed tuples, and the run raises in its first epoch,
    [ValueError] from the unpacking or an exception of torch.  No epoch
    line is printed or logged and no checkpoint is written: the weights
    directory is left empty and the log holds the start line only. *)
Theorem no_epoch_completes {T : Torch} (cfg : config) (uuid : string)
    (w : world) (files : gmap string (node row state_dict log_line))
    (rows : list row) (samples : list (tensor * tensor)) :
  files !! log_name uuid = None →
  files !! DIR_FOR_WEIGHTS = None →
  files !! DATASET_PATH = Some (CsvFile rows) →
  0 < CHUNK_SIZE cfg →
  0 < TRAIN_DATASET_LENGTH cfg ≤ Z.of_nat (length rows) →
  0 < TEST_DATASET_LENGTH cfg →
  0 < NUMBER_OF_EPOCHS cfg →
  Forall2 (λ r s, row_to_sample r = Some s) rows samples →
  (∀ s, s ∈ samples → unpack2 s.2 = None) →
  let run := program cfg uuid (boot w files) in
  (run.1 = Raise ValueError ∨ run.1 = Raise TorchError)
  ∧ io_events (trace run.2)
    = [EvOpen (log_name uuid); EvMkdir DIR_FOR_WEIGHTS; EvWrite StartTime]
  ∧ printed (trace run.2) = []
  ∧ saved (trace run.2) = []
  ∧ fs run.2 !! DIR_FOR_WEIGHTS = Some (Directory ∅)
  ∧ fs run.2 !! log_name uuid = Some (LogFile [StartTime]).
Proof.
  intros Hlp Hdir Hdata Hc Ha Hb Hn Hdec Hunpack run.
  pose proof (log_name_ne_weights uuid) as Hlw.
  pose proof (log_name_ne_dataset uuid) as Hld.
  assert (Hrun : run = program cfg uuid (boot w files)) by done. clearbody run.
  unfold program, bind, open_w in Hrun. simpl in Hrun. rewrite Hlp in Hrun.
  match type of Hrun with
  | context [main _ _ ?m0] => set (m := m0) in *
  end.
  destruct (main_first_epoch_raises cfg (log_name uuid) m [] rows samples Hlw Hld)
    as (Hres & Hfs & ops & Htr); try done.
  { apply lookup_insert_eq. }
  { simpl. by rewrite lookup_insert_ne. }
  { simpl. by rewrite lookup_insert_ne. }
  destruct (main cfg (log_name uuid) m) as [[[] | e] m']; simpl in *;
    [by destruct Hres |].
  subst run. simpl. rewrite Htr, Hfs.
  change (io_events (EvOpen (log_name uuid) :: EvMkdir DIR_FOR_WEIGHTS
                       :: EvWrite StartTime :: (EvTorch <$> ops)))
    with (EvOpen (log_name uuid) :: EvMkdir DIR_FOR_WEIGHTS
            :: EvWrite StartTime :: io_events (EvTorch <$> ops)).
  change (printed (EvOpen (log_name uuid) :: EvMkdir DIR_FOR_WEIGHTS
                     :: EvWrite StartTime :: (EvTorch <$> ops)))
    with (printed (EvTorch <$> ops)).
  change (saved (EvOpen (log_name uuid) :: EvMkdir DIR_FOR_WEIGHTS
                   :: EvWrite StartTime :: (EvTorch <$> ops)))
    with (saved (EvTorch <$> ops)).
  rewrite io_events_torch, printed_torch, saved_torch.
  split_and!; try done.
  - rewrite lookup_insert_ne by done. apply lookup_insert_eq.
  - apply lookup_insert_eq.
Qed.

(** A table of ten rows, four of them for training, and tensors that do
    not unpack. *)
Lemma no_epoch_completes_witness :
  let files : gmap string (node Z Z (log_line (T := Strict.torch))) :=
    {[ DATASET_PATH := CsvFile (range 10) ]} in
  let run := program (T := Strict.torch) Toy.small_config "run"
               (boot (T := Strict.torch) 0 files) in
  (run.1 = Raise ValueError ∨ run.1 = Raise TorchError)
  ∧ io_events (trace run.2)
    = [EvOpen (log_name "run"); EvMkdir DIR_FOR_WEIGHTS; EvWrite StartTime]
  ∧ printed (trace run.2) = []
  ∧ saved (trace run.2) = []
  ∧ fs run.2 !! DIR_FOR_WEIGHTS = Some (Directory ∅)
  ∧ fs run.2 !! log_name "run" = Some (LogFile [StartTime]).
Proof.
  intros files.
  apply (no_epoch_completes (T := Strict.torch) Toy.small_config "run" 0 files
           (range 10) ((λ i : Z, (i, i)) <$> range 10));
    [reflexivity | reflexivity | reflexivity | reflexivity
    | vm_compute; split; [reflexivity | discriminate]
    | reflexivity | reflexivity | | done].
  apply Forall2_fmap_r, Forall_Forall2_diag, Forall_forall. by intros r _.
Defined.

(** ** The model on shapes *)

Section ModelShapes.
Import ChessModel.

Lemma pool_side (l : Z) : (l - 2) / 2 + 1 = l / 2.
Proof.
  replace (l - 2) with (l + (-1) * 2) by lia.
  rewrite Z.div_add by lia. lia.
Qed.

Lemma conv_1_shape (n h w : Z) :
  conv_1 [n; 14; h; w]
  = if (h <=? 0) || (w <=? 0) then Raise TorchError
    else if (h / 2 <=? 0) || (w / 2 <=? 0) then Raise TorchError
    else Ok [n; 28; h / 2; w / 2].
Proof.
  unfold conv_1, Conv2d, ReLU, MaxPool2d. simpl.
  replace (h + 2 * 1 - 3 + 1) with h by lia.
  replace (w + 2 * 1 - 3 + 1) with w by lia.
  destruct ((h <=? 0) || (w <=? 0)); simpl; [done |].
  by rewrite !pool_side.
Qed.

Lemma conv_2_shape (n h w : Z) :
  conv_2 [n; 28; h; w]
  = if (h <=? 0) || (w <=? 0) then Raise TorchError
    else if (h / 2 <=? 0) || (w / 2 <=? 0) then Raise TorchError
    else Ok [n; 56; h / 2; w / 2].
Proof.
  unfold conv_2, Conv2d, ReLU, MaxPool2d. simpl.
  replace (h + 2 * 1 - 3 + 1) with h by lia.
  replace (w + 2 * 1 - 3 + 1) with w by lia.
  destruct ((h <=? 0) || (w <=? 0)); simpl; [done |].
  by rewrite !pool_side.
Qed.

Lemma conv_1_accepts (x y : list Z) :
  conv_1 x = Ok y →
  (∃ h w, x = [14; h; w]) ∨ (∃ n h w, x = [n; 14; h; w]).
Proof.
  unfold conv_1, Conv2d. intros Hy.
  destruct x as [| a [| b [| c [| d [| e x]]]]]; simpl in Hy; try done.
  - destruct (Z.eqb_spec a 14) as [-> | ?]; simpl in Hy; [| done]. left. eauto.
  - destruct (Z.eqb_spec b 14) as [-> | ?]; simpl in Hy; [| done]. right. eauto.
Qed.

Lemma forward_board (h w : Z) :
  (forward [14; h; w]).1
  = if (h <=? 0) || (w <=? 0) then Raise TorchError
    else if (h / 2 <=? 0) || (w / 2 <=? 0) then Raise TorchError
    else if (h / 2 / 2 <=? 0) || (w / 2 / 2 <=? 0) then Raise TorchError
    else if 56 * (h / 2 / 2 * (w / 2 / 2 * 1)) =? 224 then Ok [1; 1]
    else Raise TorchError.
Proof.
  unfold forward, unsqueeze_0. simpl. rewrite conv_1_shape.
  destruct ((h <=? 0) || (w <=? 0)); [done |].
  destruct (Z.leb_spec (h / 2) 0); simpl; [done |].
  destruct (Z.leb_spec (w / 2) 0); simpl; [done |].
  rewrite conv_2_shape.
  destruct (Z.leb_spec (h / 2) 0); [lia |].
  destruct (Z.leb_spec (w / 2) 0); [lia |]. simpl.
  destruct ((h / 2 / 2 <=? 0) || (w / 2 / 2 <=? 0)); [done |]. simpl.
  unfold linear_1, Linear. simpl.
  destruct (56 * (h / 2 / 2 * (w / 2 / 2 * 1)) =? 224); done.
Qed.

Lemma forward_ok_inv (x out : list Z) :
  (forward x).1 = Ok out →
  out = [1; 1]
  ∧ ∃ h w, x = [14; h; w] ∧ 0 < h ∧ 0 < w ∧ (h / 2 / 2) * (w / 2 / 2) = 4.
Proof.
  intros Hout.
  assert (Hx : ∃ h w, x = [14; h; w]).
  { unfold forward, unsqueeze_0 in Hout. simpl in Hout.
    destruct (conv_1 (1 :: x)) as [y |] eqn:Hc; [| done].
    apply conv_1_accepts in Hc as [(h & w & [=]) | (n & h & w & [= _ ->])]. eauto. }
  destruct Hx as (h & w & ->). rewrite forward_board in Hout.
  destruct (Z.leb_spec h 0); [done |].
  destruct (Z.leb_spec w 0); [done |]. simpl in Hout.
  destruct ((h / 2 <=? 0) || (w / 2 <=? 0)); [done |].
  destruct ((h / 2 / 2 <=? 0) || (w / 2 / 2 <=? 0)); [done |].
  destruct (Z.eqb_spec (56 * (h / 2 / 2 * (w / 2 / 2 * 1))) 224); [| done].
  injection Hout as <-. split; [done |]. exists h, w. split; [done |]. lia.
Qed.

(** X10.  The shapes [forward] accepts.  The call returns exactly for an
    argument of three dimensions with 14 planes whose height and width,
    halved twice (rounding down), multiply to 4, as they do for an 8 by 8
    board; the output then has the shape [(1, 1)], the shape of the label
    tensors of line 71.  Every other argument makes a layer raise. *)
Theorem forward_accepts_boards (x out : list Z) :
  (forward x).1 = Ok out
  ↔ out = label_shape
    ∧ ∃ h w, x = [14; h; w] ∧ 0 < h ∧ 0 < w ∧ (h / 2 / 2) * (w / 2 / 2) = 4.
Proof.
  split; [apply forward_ok_inv |].
  intros (-> & h & w & -> & Hh & Hw & Hprod).
  rewrite forward_board.
  assert (0 ≤ h / 2 / 2) by (apply Z.div_pos; [apply Z.div_pos; lia | lia]).
  assert (0 ≤ w / 2 / 2) by (apply Z.div_pos; [apply Z.div_pos; lia | lia]).
  assert (0 < h / 2 / 2 ∧ 0 < w / 2 / 2) as [Hhh Hww] by nia.
  assert (0 < h / 2).
  { destruct (Z.le_gt_cases (h / 2) 0) as [Hle |]; [| done].
    assert (h / 2 / 2 ≤ 0) by (apply Z.div_le_upper_bound; lia). lia. }
  assert (0 < w / 2).
  { destruct (Z.le_gt_cases (w / 2) 0) as [Hle |]; [| done].
    assert (w / 2 / 2 ≤ 0) by (apply Z.div_le_upper_bound; lia). lia. }
  destruct (Z.leb_spec h 0); [lia |]. destruct (Z.leb_spec w 0); [lia |]. simpl.
  destruct (Z.leb_spec (h / 2) 0); [lia |].
  destruct (Z.leb_spec (w / 2) 0); [lia |]. simpl.
  destruct (Z.leb_spec (h / 2 / 2) 0); [lia |].
  destruct (Z.leb_spec (w / 2 / 2) 0); [lia |]. simpl.
  destruct (Z.eqb_spec (56 * (h / 2 / 2 * (w / 2 / 2 * 1))) 224); [done | lia].
Qed.

(** X11.  Line 141 changes the shape of the caller's tensor: after a call
    the argument has one dimension more.  So a tensor [forward] has
    accepted is not accepted again: the second call on the same tensor
    raises. *)
Theorem forward_twice_raises (x out : list Z) :
  (forward x).1 = Ok out →
  (forward x).2 = 1 :: x
  ∧ (forward (forward x).2).1 = Raise TorchError.
Proof.
  intros (_ & h & w & -> & _)%forward_ok_inv. split; reflexivity.
Qed.

End ModelShapes.

(** An 8 by 8 board of 14 planes. *)
Lemma forward_twice_raises_witness :
  (ChessModel.forward [14; 8; 8]).2 = [1; 14; 8; 8]
  ∧ (ChessModel.forward (ChessModel.forward [14; 8; 8]).2).1 = Raise TorchError.
Proof.
  apply (forward_twice_raises [14; 8; 8] [1; 1]). reflexivity.
Defined.
